(** * Polecat API example: client, paginated fetcher, CSV writer, lookups

    A shallow embedding of [download_docs.py] and [search.py].

    - JSON values produced by [json.loads] are the inductive type [json];
      a Python [dict] is an association list in insertion order.
    - Python exceptions are the type [exn]; code that may raise runs in
      the monad [M S], a state monad over [S] with an exception result.
    - The network is an oracle [server]: the reply to the k-th request.
      Every request issued and every call to [time.sleep] is recorded in
      the [world], so that theorems can count them.
    - The four CSV files are lists of rows; a row is the list of cells
      handed to [csv.writer.writerow].
    - [print] calls are not modelled. *)

From Stdlib Require Import ZArith List String Ascii Bool Lia DecimalString.
Import ListNotations.

Open Scope string_scope.
Open Scope Z_scope.

Set Warnings "-register-all".

(** ** JSON values *)

(** The values [json.loads] can return.  A Python [float] is kept as the
    bit pattern of its IEEE 754 double; the programs never compute with
    one, they only test truthiness and copy it into rows. *)
Inductive json : Type :=
| JNull
| JBool (b : bool)
| JInt (n : Z)
| JFloat (bits : Z)
| JStr (s : string)
| JList (xs : list json)
| JObj (kvs : list (string * json)).

Definition dict := list (string * json).

(** ** Exceptions and results *)

Definition headers := list (string * string).

(** [urllib.error.HTTPError(url, code, msg, hdrs, fp)]; [fp] is the
    response body. *)
Record http_error : Type := mkHTTPError {
  err_url : string;
  err_code : Z;
  err_msg : string;
  err_hdrs : headers;
  err_fp : string
}.

Inductive exn : Type :=
| HTTPError (e : http_error)
| URLError (reason : string)
| TypeError
| ValueError
| KeyError (key : string)
| AttributeError
| Exception (message : string).

(** [OutOfFuel] is not a Python outcome: it marks a [while] loop of the
    model that was given too little fuel to finish. *)
Inductive result (A : Type) : Type :=
| Ok (a : A)
| Raise (e : exn)
| OutOfFuel.

Arguments Ok {A} a.
Arguments Raise {A} e.
Arguments OutOfFuel {A}.

(** ** The state-and-exception monad *)

Definition M (S A : Type) : Type := S -> result A * S.

Definition ret {S A} (a : A) : M S A := fun s => (Ok a, s).

Definition raise {S A} (e : exn) : M S A := fun s => (Raise e, s).

Definition bind {S A B} (m : M S A) (k : A -> M S B) : M S B :=
  fun s =>
    match m s with
    | (Ok a, s') => k a s'
    | (Raise e, s') => (Raise e, s')
    | (OutOfFuel, s') => (OutOfFuel, s')
    end.

(** A pure computation that may raise, run inside [M]. *)
Definition lift {S A} (r : result A) : M S A := fun s => (r, s).

Declare Scope monad_scope.
Delimit Scope monad_scope with monad.
Notation "x <- m ;; k" := (bind m (fun x => k))
  (at level 61, m at next level, right associativity) : monad_scope.
Notation "m ;;; k" := (bind m (fun _ => k))
  (at level 61, right associativity) : monad_scope.
Open Scope monad_scope.

(** [for x in xs: body x] *)
Fixpoint for_each {S A} (xs : list A) (body : A -> M S unit) : M S unit :=
  match xs with
  | [] => ret tt
  | x :: xs' => body x ;;; for_each xs' body
  end.

(** ** Python operations on JSON values *)

Fixpoint lookup (k : string) (d : dict) : option json :=
  match d with
  | [] => None
  | (k', v) :: d' => if String.eqb k k' then Some v else lookup k d'
  end.

(** [d[k] = v] on a dict: replaces the binding in place, or appends it. *)
Fixpoint dict_set (k : string) (v : json) (d : dict) : dict :=
  match d with
  | [] => [(k, v)]
  | (k', v') :: d' =>
      if String.eqb k k' then (k, v) :: d' else (k', v') :: dict_set k v d'
  end.

(** [obj[k]] with a string key: [KeyError] on a dict without the key,
    [TypeError] on anything that is not a dict. *)
Definition py_getitem (obj : json) (k : string) : result json :=
  match obj with
  | JObj d =>
      match lookup k d with
      | Some v => Ok v
      | None => Raise (KeyError k)
      end
  | _ => Raise TypeError
  end.

(** [obj.get(k)]: [None] when the key is absent; only a dict has [get]. *)
Definition py_get (obj : json) (k : string) : result json :=
  match obj with
  | JObj d =>
      match lookup k d with
      | Some v => Ok v
      | None => Ok JNull
      end
  | _ => Raise AttributeError
  end.

Fixpoint chars (s : string) : list json :=
  match s with
  | EmptyString => []
  | String a s' => JStr (String a EmptyString) :: chars s'
  end.

(** The elements a [for] loop or a comprehension visits. *)
Definition py_iter (obj : json) : result (list json) :=
  match obj with
  | JList xs => Ok xs
  | JObj d => Ok (map (fun kv => JStr (fst kv)) d)
  | JStr s => Ok (chars s)
  | _ => Raise TypeError
  end.

(** Truth value of an object, as [while x:] tests it. *)
Definition truthy (v : json) : bool :=
  match v with
  | JNull => false
  | JBool b => b
  | JInt n => negb (n =? 0)
  | JFloat bits => negb (Z.land bits (Z.ones 63) =? 0)
  | JStr s => negb (String.eqb s EmptyString)
  | JList xs => match xs with [] => false | _ => true end
  | JObj d => match d with [] => false | _ => true end
  end.

Definition is_none (v : json) : bool :=
  match v with
  | JNull => true
  | _ => false
  end.

(** [v == s] for a [str] [s]: only an equal string compares equal. *)
Definition py_eq_str (v : json) (s : string) : bool :=
  match v with
  | JStr s' => String.eqb s' s
  | _ => false
  end.

(** [sep.join(xs)]: every element has to be a [str]. *)
Fixpoint join (sep : string) (xs : list json) : result string :=
  match xs with
  | [] => Ok EmptyString
  | [JStr s] => Ok s
  | JStr s :: xs' =>
      match join sep xs' with
      | Ok r => Ok (s ++ sep ++ r)
      | Raise e => Raise e
      | OutOfFuel => OutOfFuel
      end
  | _ => Raise TypeError
  end.

(** The same operations as steps of a monadic computation. *)
Definition getitem {S} (obj : json) (k : string) : M S json :=
  lift (py_getitem obj k).

Definition getitem2 {S} (obj : json) (k1 k2 : string) : M S json :=
  x <- getitem obj k1 ;; getitem x k2.

Definition getitem3 {S} (obj : json) (k1 k2 k3 : string) : M S json :=
  x <- getitem2 obj k1 k2 ;; getitem x k3.

Definition getitem4 {S} (obj : json) (k1 k2 k3 k4 : string) : M S json :=
  x <- getitem3 obj k1 k2 k3 ;; getitem x k4.

Definition get {S} (obj : json) (k : string) : M S json :=
  lift (py_get obj k).

Definition iter {S} (obj : json) : M S (list json) :=
  lift (py_iter obj).

(** [[f x for x in xs]] *)
Fixpoint map_m {S A B} (f : A -> M S B) (xs : list A) : M S (list B) :=
  match xs with
  | [] => ret []
  | x :: xs' => y <- f x ;; ys <- map_m f xs' ;; ret (y :: ys)
  end.

(** A loop that carries an accumulator through its rounds. *)
Fixpoint fold_m {S A B} (f : B -> A -> M S B) (xs : list A) (acc : B) : M S B :=
  match xs with
  | [] => ret acc
  | x :: xs' => acc' <- f acc x ;; fold_m f xs' acc'
  end.

Definition nl : string := String (ascii_of_nat 10) EmptyString.

(** ** The world outside the program *)

(** What [urlopen] is given: the URL, the headers of [Client._headers],
    and the body [{"query": query, "variables": variables}] before it is
    serialised. *)
Record request : Type := mkRequest {
  req_url : string;
  req_headers : headers;
  req_query : string;
  req_variables : dict;
  req_timeout : Z
}.

(** The requests issued so far, oldest first, and the durations handed to
    [time.sleep], oldest first. *)
Record world : Type := mkWorld {
  requests : list request;
  sleeps : list Z
}.

Definition fresh : world := mkWorld [] [].

(** What the network does with one request: [urlopen], [response.read]
    and [json.loads] produce the parsed body, or one of them raises. *)
Inductive reply : Type :=
| Body (result : json)
| Fails (e : exn).

(** [time.sleep(secs)]: raises [ValueError] on a negative duration. *)
Definition sleep (secs : Z) : M world unit :=
  fun w =>
    if secs <? 0 then (Raise ValueError, w)
    else (Ok tt, mkWorld (requests w) (sleeps w ++ [secs])).

(** ** Client *)

Record Client : Type := mkClient {
  token : string;
  url : string;
  timeout : Z;
  page_size : Z;
  max_retry_wait : Z;
  max_retries : Z
}.

(** [Client()] with the defaults of [__init__] and the token the
    environment supplies. *)
Definition default_client (env_token : string) : Client :=
  mkClient env_token "https://api.polecat.com/graphql" 60 100 30 3.

Definition _max_retries_msg : string := "Maximum number of retries exceeded".

Definition _headers (self : Client) : headers :=
  [("Authorization", "api-key " ++ token self);
   ("Content-Type", "application/json")].

(** ** Instances for running the model

    The development is parametric in the server and in three builtins of
    Python.  These instances are used to run it on examples. *)

(** A server that replies from a script, whatever the request, and with
    [default] once the script is used up. *)
Definition scripted (script : list reply) (default : reply)
  : nat -> request -> reply :=
  fun k _ => nth k script default.

(** [int] on plain decimal numerals with an optional minus sign.  Python
    accepts more (a plus sign, blanks around the numeral, underscores);
    on what this accepts it yields the same number. *)
Definition decimal_int (s : string) : option Z :=
  option_map Z.of_int (NilZero.int_of_string s).

Definition lower_ascii (c : ascii) : ascii :=
  let n := nat_of_ascii c in
  if (65 <=? n)%nat && (n <=? 90)%nat then ascii_of_nat (n + 32) else c.

(** [str.lower] on ASCII text. *)
Fixpoint ascii_lower (s : string) : string :=
  match s with
  | EmptyString => EmptyString
  | String c s' => String (lower_ascii c) (ascii_lower s')
  end.

Definition quoted (s : string) : string :=
  String (ascii_of_nat 34) (s ++ String (ascii_of_nat 34) EmptyString).

Definition upper_ascii (c : ascii) : ascii :=
  let n := nat_of_ascii c in
  if (97 <=? n)%nat && (n <=? 122)%nat then ascii_of_nat (n - 32) else c.

(** [str.upper] on ASCII text. *)
Fixpoint ascii_upper (s : string) : string :=
  match s with
  | EmptyString => EmptyString
  | String c s' => String (upper_ascii c) (ascii_upper s')
  end.

(** [json.dumps] on values built from [null], booleans, integers and
    strings that need no escape; a float is shown by its bit pattern. *)
Fixpoint dumps (v : json) : string :=
  match v with
  | JNull => "null"
  | JBool true => "true"
  | JBool false => "false"
  | JInt n => NilZero.string_of_int (Z.to_int n)
  | JFloat bits => "float:" ++ NilZero.string_of_int (Z.to_int bits)
  | JStr s => quoted s
  | JList xs =>
      "[" ++ (fix elements (xs : list json) : string :=
                match xs with
                | [] => EmptyString
                | [x] => dumps x
                | x :: xs' => dumps x ++ ", " ++ elements xs'
                end) xs ++ "]"
  | JObj kvs =>
      "{" ++ (fix members (kvs : list (string * json)) : string :=
                match kvs with
                | [] => EmptyString
                | [(k, x)] => quoted k ++ ": " ++ dumps x
                | (k, x) :: kvs' =>
                    quoted k ++ ": " ++ dumps x ++ ", " ++ members kvs'
                end) kvs ++ "}"
  end.

Section Program.

(** The reply to the k-th request (counting from 0). *)
Variable server : nat -> request -> reply.

(** Builtins of Python the programs call.  [py_int s] is [int(s)] on a
    [str], [None] where it raises [ValueError]; [str_lower] is
    [str.lower]; [json_dumps] is [json.dumps]. *)
Variable py_int : string -> option Z.
Variable str_lower : string -> string.
Variable json_dumps : json -> string.

(** [hdrs.get(name)] on an [email.message.Message]: the first header
    whose name matches, compared in lower case. *)
Fixpoint headers_get (name : string) (hs : headers) : option string :=
  match hs with
  | [] => None
  | (k, v) :: hs' =>
      if String.eqb (str_lower k) (str_lower name) then Some v
      else headers_get name hs'
  end.

(** [int(x)] for [x] a header value or [None]. *)
Definition int_of (x : option string) : result Z :=
  match x with
  | None => Raise TypeError
  | Some s =>
      match py_int s with
      | Some n => Ok n
      | None => Raise ValueError
      end
  end.

(** [Request(url=self.url, data=data, headers=self._headers())], sent
    with [timeout=self.timeout]. *)
Definition Request (self : Client) (query : string) (variables : dict)
  : request :=
  mkRequest (url self) (_headers self) query variables (timeout self).

Definition execute_query (self : Client) (query : string) (variables : dict)
  : M world json :=
  fun w =>
    let request := Request self query variables in
    (match server (List.length (requests w)) request with
     | Body result => Ok result
     | Fails e => Raise e
     end,
     mkWorld (requests w ++ [request]) (sleeps w)).

(** [try: body  except HTTPError as err: handler err] *)
Definition try_except_HTTPError {A} (body : M world A)
    (handler : http_error -> M world A) : M world A :=
  fun w =>
    match body w with
    | (Raise (HTTPError err), w') => handler err w'
    | other => other
    end.

(** The [except] block of [execute_query_with_retries].  It ends by
    raising, or by falling through to the next round of the loop. *)
Definition on_http_error (self : Client) (attempt : Z) (err : http_error)
  : M world unit :=
  if negb (err_code err =? 429) then raise (HTTPError err)
  else
    wait <- lift (int_of (headers_get "Retry-After" (err_hdrs err))) ;;
    let wait := Z.min wait (max_retry_wait self) in
    if attempt =? max_retries self then
      raise (HTTPError (mkHTTPError (err_url err) (err_code err)
                                    _max_retries_msg
                                    (err_hdrs err) (err_fp err)))
    else sleep wait.

(** The [for attempt in range(...)] loop, with [n] rounds left.  A
    round either returns the reply, or handles the [HTTPError] and goes
    on; a loop that runs out of rounds falls off the end of the function
    and returns [None]. *)
Fixpoint retry_loop (self : Client) (query : string) (variables : dict)
    (n : nat) (attempt : Z) : M world json :=
  match n with
  | O => ret JNull
  | S n' =>
      try_except_HTTPError
        (execute_query self query variables)
        (fun err =>
           on_http_error self attempt err ;;;
           retry_loop self query variables n' (attempt + 1))
  end.

Definition execute_query_with_retries (self : Client) (query : string)
    (variables : dict) : M world json :=
  retry_loop self query variables (Z.to_nat (max_retries self + 1)) 0.


(** *** get_documents *)

Definition documents_query : string :=
"
        query Documents($insight: InsightQuery!, $first: Int!, $after: Cursor) {
            documents(insight: $insight, first: $first, after: $after, sortAsc: false) {
                edges {
                    node {
                        id harvestTime title domain url 
                        source publisher reach sentiment author
                        companies { company { id name } significance }
                        topics { topic { id name } significance }
                    }
                }
                pageInfo { endCursor hasNextPage }
            }
        }
    ".

(** A generator object of [get_documents]: suspended with the values of
    its local variables (before its first [next] as well, when they are
    the initial ones), or finished. *)
Inductive generator : Type :=
| Suspended (next_page : json) (variables : dict) (page_count : Z)
| Finished.

(** What a call of [next] hands back when it does not raise an error:
    the batch yielded, or the end of the iteration. *)
Inductive resumed : Type :=
| Yield (batch : list json)
| StopIteration.

Definition get_documents (client : Client) (insight : json) : generator :=
  Suspended (JBool true)
            [("insight", insight); ("first", JInt (page_size client))]
            1.

(** The message of the exception raised for a response with [errors]. *)
Definition graphql_err {S} (err : json) : M S string :=
  es <- iter err ;;
  ms <- map_m (fun e => getitem e "message") es ;;
  messages <- lift (join (nl ++ "  ") ms) ;;
  ret ("Graphql query returned the following error: " ++ nl ++ "  "
       ++ messages ++ nl ++ "Full error: " ++ json_dumps err).

(** One call of [next] on the generator: the body of the [while] loop
    from its test to the [yield], or to the end of the function. *)
Definition next (client : Client) (g : generator)
  : M world (resumed * generator) :=
  match g with
  | Finished => ret (StopIteration, Finished)
  | Suspended next_page variables page_count =>
      if truthy next_page then
        response <- execute_query_with_retries client documents_query
                                               variables ;;
        err <- get response "errors" ;;
        if negb (is_none err) then
          message <- graphql_err err ;;
          raise (Exception message)
        else
          data <- get response "data" ;;
          if is_none data then ret (StopIteration, Finished)
          else
            next_page <- getitem3 data "documents" "pageInfo" "hasNextPage" ;;
            after <- getitem3 data "documents" "pageInfo" "endCursor" ;;
            let variables := dict_set "after" after variables in
            let page_count := page_count + 1 in
            edges <- getitem2 data "documents" "edges" ;;
            es <- iter edges ;;
            batch <- map_m (fun edge => getitem edge "node") es ;;
            ret (Yield batch, Suspended next_page variables page_count)
      else ret (StopIteration, Finished)
  end.

(** [for page in docs: ...], collecting the pages: calls [next] until
    the iteration stops.  [fuel] bounds the number of calls. *)
Fixpoint pages_of (fuel : nat) (client : Client) (g : generator)
  : M world (list (list json)) :=
  match fuel with
  | O => lift OutOfFuel
  | S fuel' =>
      r <- next client g ;;
      match fst r with
      | StopIteration => ret []
      | Yield batch =>
          rest <- pages_of fuel' client (snd r) ;;
          ret (batch :: rest)
      end
  end.

(** *** The CSV files *)

Definition row := list json.

Inductive table : Type :=
| documents_csv
| documents_denormalised_csv
| documents_companies_csv
| documents_topics_csv.

Definition file_name (t : table) : string :=
  match t with
  | documents_csv => "documents.csv"
  | documents_denormalised_csv => "documents_denormalised.csv"
  | documents_companies_csv => "documents_companies.csv"
  | documents_topics_csv => "documents_topics.csv"
  end.

(** The rows of each file, first row first. *)
Record files : Type := mkFiles {
  docs_rows : list row;
  denorm_rows : list row;
  comp_rows : list row;
  tops_rows : list row
}.

Definition rows_of (t : table) (f : files) : list row :=
  match t with
  | documents_csv => docs_rows f
  | documents_denormalised_csv => denorm_rows f
  | documents_companies_csv => comp_rows f
  | documents_topics_csv => tops_rows f
  end.

Definition set_rows (t : table) (rs : list row) (f : files) : files :=
  match t with
  | documents_csv => mkFiles rs (denorm_rows f) (comp_rows f) (tops_rows f)
  | documents_denormalised_csv =>
      mkFiles (docs_rows f) rs (comp_rows f) (tops_rows f)
  | documents_companies_csv =>
      mkFiles (docs_rows f) (denorm_rows f) rs (tops_rows f)
  | documents_topics_csv =>
      mkFiles (docs_rows f) (denorm_rows f) (comp_rows f) rs
  end.

(** [writer.writerow(r)] on a file opened with ["a"]. *)
Definition writerow (t : table) (r : row) : M files unit :=
  fun f => (Ok tt, set_rows t (rows_of t f ++ [r]) f).

(** [write_headers(file, headers)]: the file is opened with ["w"], so
    the header becomes its only row. *)
Definition write_headers (t : table) (hdr : list string) : M files unit :=
  fun f => (Ok tt, set_rows t [map JStr hdr] f).

Definition docs_header : list string :=
  ["id"; "harvest_time"; "sentiment"; "reach"; "publisher"; "domain";
   "source"; "author"; "url"; "title"].

Definition denorm_header : list string :=
  ["document_id"; "harvest_time"; "data_source"; "sentiment"; "reach";
   "company_id"; "company_name"; "company_significance";
   "topic_id"; "topic_name"; "topic_significance"].

Definition comp_header : list string :=
  ["document_id"; "company_id"; "company_name"; "company_significance"].

Definition tops_header : list string :=
  ["document_id"; "topic_id"; "topic_name"; "topic_significance"].

Definition file_headers : list (table * list string) :=
  [(documents_csv, docs_header);
   (documents_denormalised_csv, denorm_header);
   (documents_companies_csv, comp_header);
   (documents_topics_csv, tops_header)].

Definition name_in (k : string) (existing : list string) : bool :=
  existsb (String.eqb k) existing.

Definition write_all_headers (existing : list string) : M files unit :=
  for_each file_headers
    (fun kv =>
       if negb (name_in (file_name (fst kv)) existing)
       then write_headers (fst kv) (snd kv)
       else ret tt).

(** The body of [for topic in doc["topics"]] inside the first loop over
    the companies: one row of documents_denormalised.csv. *)
Definition write_denorm_row (doc_base : row) (company topic : json)
  : M files unit :=
  cid <- getitem2 company "company" "id" ;;
  cname <- getitem2 company "company" "name" ;;
  csig <- getitem company "significance" ;;
  tid <- getitem2 topic "topic" "id" ;;
  tname <- getitem2 topic "topic" "name" ;;
  tsig <- getitem topic "significance" ;;
  writerow documents_denormalised_csv
    (doc_base ++ [cid; cname; csig; tid; tname; tsig])%list.

(** The body of the first [for company in doc["companies"]]. *)
Definition write_denorm_rows (doc : json) (doc_base : row) (focus_id : string)
    (company : json) : M files unit :=
  cid <- getitem2 company "company" "id" ;;
  if py_eq_str cid focus_id then
    topics <- getitem doc "topics" ;;
    ts <- iter topics ;;
    for_each ts (write_denorm_row doc_base company)
  else ret tt.

(** The body of the second [for company in doc["companies"]]: one row of
    documents_companies.csv for a company that is the focus. *)
Definition write_comp_row (doc : json) (focus_id : string) (company : json)
  : M files unit :=
  cid <- getitem2 company "company" "id" ;;
  if py_eq_str cid focus_id then
    id <- getitem doc "id" ;;
    cid <- getitem2 company "company" "id" ;;
    cname <- getitem2 company "company" "name" ;;
    csig <- getitem company "significance" ;;
    writerow documents_companies_csv [id; cid; cname; csig]
  else ret tt.

(** The body of the last [for topic in doc["topics"]]: one row of
    documents_topics.csv. *)
Definition write_tops_row (doc : json) (topic : json) : M files unit :=
  id <- getitem doc "id" ;;
  tid <- getitem2 topic "topic" "id" ;;
  tname <- getitem2 topic "topic" "name" ;;
  tsig <- getitem topic "significance" ;;
  writerow documents_topics_csv [id; tid; tname; tsig].

(** The body of [for doc in documents] in [write_docs]. *)
Definition write_doc (doc : json) (focus_id : string) : M files unit :=
  id <- getitem doc "id" ;;
  harvestTime <- getitem doc "harvestTime" ;;
  sentiment <- getitem doc "sentiment" ;;
  reach <- getitem doc "reach" ;;
  let doc_base := [id; harvestTime; sentiment; reach] in
  publisher <- getitem doc "publisher" ;;
  domain <- getitem doc "domain" ;;
  source <- getitem doc "source" ;;
  author <- getitem doc "author" ;;
  url <- getitem doc "url" ;;
  title <- getitem doc "title" ;;
  writerow documents_csv
    (doc_base ++ [publisher; domain; source; author; url; title])%list ;;;
  companies <- getitem doc "companies" ;;
  cs <- iter companies ;;
  for_each cs (write_denorm_rows doc doc_base focus_id) ;;;
  companies <- getitem doc "companies" ;;
  cs <- iter companies ;;
  for_each cs (write_comp_row doc focus_id) ;;;
  topics <- getitem doc "topics" ;;
  ts <- iter topics ;;
  for_each ts (write_tops_row doc).

Definition write_docs (documents : list json) (focus_id : string)
  : M files unit :=
  for_each documents (fun doc => write_doc doc focus_id).

(** *** search.py *)

Definition companies_query : string :=
"
        query Companies($first: Int!, $after: Cursor, $search: String) {
            companies(first: $first, after: $after, search: $search) {
                edges { node { id name } }
                pageInfo { endCursor hasNextPage }
            }
        }
    ".

Definition taxonomies_query : string :=
"
        query Taxonomies{
            myOrganisation{
                taxonomies{
                    id name
                }
            }
        }
    ".

(** The dict [{"best": [...], "all": [...]}] of (name, id) tuples. *)
Record match_set : Type := mkMatchSet {
  best : list (json * json);
  all : list (json * json)
}.

(** [x.lower()]: only a [str] has the method. *)
Definition lower {S} (x : json) : M S string :=
  match x with
  | JStr s => ret (str_lower s)
  | _ => raise AttributeError
  end.

(** The body of [for company in ...] in [search_companies]. *)
Definition add_company {S} (name : string) (companies : match_set)
    (company : json) : M S match_set :=
  n <- getitem2 company "node" "name" ;;
  i <- getitem2 company "node" "id" ;;
  let companies := mkMatchSet (best companies) (all companies ++ [(n, i)]) in
  n' <- getitem2 company "node" "name" ;;
  l <- lower n' ;;
  if String.eqb l (str_lower name) then
    n <- getitem2 company "node" "name" ;;
    i <- getitem2 company "node" "id" ;;
    ret (mkMatchSet (best companies ++ [(n, i)]) (all companies))
  else ret companies.

(** The [while next_page] loop of [search_companies]; [fuel] bounds the
    number of rounds. *)
Fixpoint search_companies_loop (fuel : nat) (client : Client)
    (name : string) (v : dict) (next_page : json) (companies : match_set)
  : M world match_set :=
  if truthy next_page then
    match fuel with
    | O => lift OutOfFuel
    | S fuel' =>
        response <- execute_query_with_retries client companies_query v ;;
        edges <- getitem3 response "data" "companies" "edges" ;;
        es <- iter edges ;;
        companies <- fold_m (add_company name) es companies ;;
        after <- getitem4 response "data" "companies" "pageInfo"
                          "endCursor" ;;
        let v := dict_set "after" after v in
        next_page <- getitem4 response "data" "companies" "pageInfo"
                              "hasNextPage" ;;
        search_companies_loop fuel' client name v next_page companies
    end
  else ret companies.

Definition search_companies (fuel : nat) (client : Client) (name : string)
  : M world match_set :=
  search_companies_loop fuel client name
    [("first", JInt (page_size client)); ("search", JStr name)]
    (JBool true) (mkMatchSet [] []).

(** The body of [for taxonomy in ...] in [search_taxonomy]. *)
Definition add_taxonomy {S} (name : string) (taxonomies : match_set)
    (taxonomy : json) : M S match_set :=
  n <- getitem taxonomy "name" ;;
  i <- getitem taxonomy "id" ;;
  let taxonomies :=
    mkMatchSet (best taxonomies) (all taxonomies ++ [(n, i)]) in
  n' <- getitem taxonomy "name" ;;
  l <- lower n' ;;
  if String.eqb l (str_lower name) then
    n <- getitem taxonomy "name" ;;
    i <- getitem taxonomy "id" ;;
    ret (mkMatchSet (best taxonomies ++ [(n, i)]) (all taxonomies))
  else ret taxonomies.

Definition search_taxonomy (client : Client) (name : string)
  : M world match_set :=
  response <- execute_query client taxonomies_query [] ;;
  ts <- getitem3 response "data" "myOrganisation" "taxonomies" ;;
  ts <- iter ts ;;
  fold_m (add_taxonomy name) ts (mkMatchSet [] []).

(** *** Well-formed API data

    Typed views of what the API sends, with their JSON form in the
    shape the queries ask for. *)

(** A page of the documents query: its nodes and its [pageInfo]. *)
Record page : Type := mkPage {
  items : list json;
  end_cursor : json;
  has_next_page : bool
}.

Definition page_info (cursor : json) (has_next : bool) : json :=
  JObj [("endCursor", cursor); ("hasNextPage", JBool has_next)].

Definition edge (node : json) : json := JObj [("node", node)].

Definition documents_response (p : page) : json :=
  JObj [("data",
         JObj [("documents",
                JObj [("edges", JList (map edge (items p)));
                      ("pageInfo",
                       page_info (end_cursor p) (has_next_page p))])])].

Record company_rel : Type := mkCompanyRel {
  company_id : json;
  company_name : json;
  company_significance : json
}.

Record topic_rel : Type := mkTopicRel {
  topic_id : json;
  topic_name : json;
  topic_significance : json
}.

Record document : Type := mkDocument {
  d_id : json;
  d_harvest_time : json;
  d_title : json;
  d_domain : json;
  d_url : json;
  d_source : json;
  d_publisher : json;
  d_reach : json;
  d_sentiment : json;
  d_author : json;
  d_companies : list company_rel;
  d_topics : list topic_rel
}.

Definition company_json (c : company_rel) : json :=
  JObj [("company", JObj [("id", company_id c); ("name", company_name c)]);
        ("significance", company_significance c)].

Definition topic_json (t : topic_rel) : json :=
  JObj [("topic", JObj [("id", topic_id t); ("name", topic_name t)]);
        ("significance", topic_significance t)].

Definition document_json (d : document) : json :=
  JObj [("id", d_id d);
        ("harvestTime", d_harvest_time d);
        ("title", d_title d);
        ("domain", d_domain d);
        ("url", d_url d);
        ("source", d_source d);
        ("publisher", d_publisher d);
        ("reach", d_reach d);
        ("sentiment", d_sentiment d);
        ("author", d_author d);
        ("companies", JList (map company_json (d_companies d)));
        ("topics", JList (map topic_json (d_topics d)))].

(** A page of the companies query: (name, id) of each node. *)
Record company_page : Type := mkCompanyPage {
  found : list (string * json);
  found_cursor : json;
  found_has_next : bool
}.

Definition company_node (c : string * json) : json :=
  JObj [("id", snd c); ("name", JStr (fst c))].

Definition companies_response (p : company_page) : json :=
  JObj [("data",
         JObj [("companies",
                JObj [("edges",
                       JList (map (fun c => edge (company_node c))
                                  (found p)));
                      ("pageInfo",
                       page_info (found_cursor p) (found_has_next p))])])].

Definition taxonomies_response (ts : list (string * json)) : json :=
  JObj [("data",
         JObj [("myOrganisation",
                JObj [("taxonomies", JList (map company_node ts))])])].

(** *** Vocabulary of the statements *)

(** From request number [k] on, the server sends the replies [rs] in
    turn, whatever the requests are. *)
Definition serves (k : nat) (rs : list reply) : Prop :=
  forall i r req, nth_error rs i = Some r -> server (k + i) req = r.

Definition rate_limit (e : http_error) : reply := Fails (HTTPError e).

(** [e] is a rate-limit response whose [Retry-After] header reads [d]. *)
Definition rate_limited (e : http_error) (d : Z) : Prop :=
  err_code e = 429 /\
  int_of (headers_get "Retry-After" (err_hdrs e)) = Ok d.

(** The wait for a [Retry-After] of [d]. *)
Definition clamp (self : Client) (d : Z) : Z := Z.min d (max_retry_wait self).

(** The world after [n] more requests [req] and the sleeps [ds]. *)
Definition after (w : world) (req : request) (n : nat) (ds : list Z) : world :=
  mkWorld (requests w ++ repeat req n) (sleeps w ++ ds).

(** The requests of a paginated query whose pages carry the cursors
    [cursors], starting with the variables [variables]: each request
    carries the cursor of the page before it as [after]. *)
Fixpoint paged_requests (client : Client) (query : string) (variables : dict)
    (cursors : list json) : list request :=
  match cursors with
  | [] => []
  | cursor :: cursors' =>
      Request client query variables
      :: paged_requests client query (dict_set "after" cursor variables)
                        cursors'
  end.

Definition documents_reply (p : page) : reply := Body (documents_response p).

(** The message [get_documents] builds from the messages [ms] of the
    errors [err]. *)
Definition graphql_err_message (ms : list string) (err : json) : string :=
  "Graphql query returned the following error: " ++ nl ++ "  "
  ++ String.concat (nl ++ "  ") ms ++ nl ++ "Full error: " ++ json_dumps err.

(** The rows [write_docs] is to write for a document. *)
Definition core_fields (d : document) : row :=
  [d_id d; d_harvest_time d; d_sentiment d; d_reach d].

Definition documents_row (d : document) : row :=
  (core_fields d
   ++ [d_publisher d; d_domain d; d_source d; d_author d; d_url d; d_title d])%list.

Definition denormalised_row (d : document) (ct : company_rel * topic_rel)
  : row :=
  (core_fields d
   ++ [company_id (fst ct); company_name (fst ct);
       company_significance (fst ct);
       topic_id (snd ct); topic_name (snd ct);
       topic_significance (snd ct)])%list.

Definition companies_row (d : document) (c : company_rel) : row :=
  [d_id d; company_id c; company_name c; company_significance c].

Definition topics_row (d : document) (t : topic_rel) : row :=
  [d_id d; topic_id t; topic_name t; topic_significance t].

(** The company relations of [d] whose company is the focus. *)
Definition focus_companies (d : document) (focus_id : string)
  : list company_rel :=
  filter (fun c => py_eq_str (company_id c) focus_id) (d_companies d).


Definition no_files : files := mkFiles [] [] [] [].

(** The tuple [search_companies] records for a node. *)
Definition name_id (c : string * json) : json * json := (JStr (fst c), snd c).

(** The name of the node equals the search term, case aside. *)
Definition exact_match (name : string) (c : string * json) : bool :=
  String.eqb (str_lower (fst c)) (str_lower name).

Definition companies_reply (p : company_page) : reply :=
  Body (companies_response p).


(** *** Sample data for the examples *)

Definition sample_client : Client := default_client "secret".

(** A client that retries once. *)
Definition impatient_client : Client :=
  mkClient "secret" "https://api.polecat.com/graphql" 60 100 30 1.

(** A 429 response with the given headers. *)
Definition too_many_requests (hdrs : headers) : http_error :=
  mkHTTPError "https://api.polecat.com/graphql" 429 "Too Many Requests"
              hdrs "slow down".

Definition server_error : http_error :=
  mkHTTPError "https://api.polecat.com/graphql" 500 "Internal Server Error"
              [] "oops".

Definition unreachable : reply := Fails (URLError "unreachable").

Definition sample_insight : json :=
  JObj [("focusId", JStr "C1"); ("taxonomyId", JStr "T1");
        ("fromDate", JStr "2024-01-01"); ("toDate", JStr "2024-01-31");
        ("languageFilters", JList []); ("mediaFilters", JList []);
        ("sentimentFilters", JList [])].

Definition sample_document : document :=
  mkDocument (JStr "D1") (JStr "2024-01-02T03:04:05Z") (JStr "A title")
             (JStr "example.com") (JStr "https://example.com/a")
             (JStr "Example News") (JStr "Example Ltd") (JInt 1200)
             (JInt (-1)) (JStr "A. Writer")
             [mkCompanyRel (JStr "C1") (JStr "Acme") (JInt 3);
              mkCompanyRel (JStr "C2") (JStr "Bolt") (JInt 1)]
             [mkTopicRel (JStr "P1") (JStr "Safety") (JInt 2);
              mkTopicRel (JStr "P2") (JStr "Tax") (JInt 5)].

(** A document that lists its relation with the company C1 twice. *)
Definition doubled_document : document :=
  mkDocument (JStr "D2") (JStr "2024-01-03T00:00:00Z") (JStr "Another")
             (JStr "example.com") (JStr "https://example.com/b")
             (JStr "Example News") (JStr "Example Ltd") (JInt 10)
             (JInt 0) JNull
             [mkCompanyRel (JStr "C1") (JStr "Acme") (JInt 3);
              mkCompanyRel (JStr "C1") (JStr "Acme") (JInt 3)]
             [mkTopicRel (JStr "P1") (JStr "Safety") (JInt 2)].

(** An empty page that announces a next page, and the last page. *)
Definition empty_page : page := mkPage [] (JStr "cursor-1") true.

Definition last_page : page :=
  mkPage [document_json sample_document] (JStr "cursor-2") false.

Definition first_companies : company_page :=
  mkCompanyPage [("Acme Holdings", JStr "C7"); ("ACME", JStr "C1")]
                (JStr "cursor-1") true.

Definition last_companies : company_page :=
  mkCompanyPage [("Acme Rockets", JStr "C9")] JNull false.

Definition sample_errors : json :=
  JList [JObj [("message", JStr "Unknown focus")];
         JObj [("message", JStr "Unknown taxonomy")]].

(** Responses that carry both [errors] and [data]. *)
Definition companies_with_errors : json :=
  JObj [("errors", sample_errors);
        ("data",
         JObj [("companies",
                JObj [("edges", JList [edge (company_node ("Acme", JStr "C1"))]);
                      ("pageInfo", page_info JNull false)])])].

Definition taxonomies_with_errors : json :=
  JObj [("errors", sample_errors);
        ("data",
         JObj [("myOrganisation",
                JObj [("taxonomies",
                       JList [company_node ("Risk", JStr "T1")])])])].

(** A response to the documents query with [errors] and no [data]. *)
Definition documents_with_errors : json :=
  JObj [("errors", sample_errors); ("data", JNull)].

(** Scripts for the sample servers. *)

(** Two rate limits, the second asking for more than the maximum wait,
    then a reply. *)
Definition busy_then_ok : nat -> request -> reply :=
  scripted [rate_limit (too_many_requests [("Retry-After", "5")]);
            rate_limit (too_many_requests [("retry-after", "120")]);
            Body (JObj [("data", JNull)])] unreachable.

(** Rate limits only. *)
Definition always_busy : nat -> request -> reply :=
  scripted [rate_limit (too_many_requests [("Retry-After", "5")]);
            rate_limit (too_many_requests [("Retry-After", "7")])]
           unreachable.

(** A rate limit, then a server error. *)
Definition busy_then_broken : nat -> request -> reply :=
  scripted [rate_limit (too_many_requests [("Retry-After", "5")]);
            Fails (HTTPError server_error)] unreachable.

(** A rate limit, then one without a [Retry-After] header, on the last
    attempt of [impatient_client]. *)
Definition busy_without_header : nat -> request -> reply :=
  scripted [rate_limit (too_many_requests [("Retry-After", "5")]);
            rate_limit (too_many_requests [("Content-Length", "0")])]
           unreachable.

(** A rate limit that asks for a negative wait. *)
Definition busy_negative : nat -> request -> reply :=
  scripted [rate_limit (too_many_requests [("Retry-After", "-1")]);
            Body (JObj [("data", JNull)])] unreachable.

(** A client whose [max_retries] is negative. *)
Definition idle_client : Client :=
  mkClient "secret" "https://api.polecat.com/graphql" 60 100 30 (-1).

(** A rate limit with a date in its [Retry-After] header. *)
Definition busy_until_date : nat -> request -> reply :=
  scripted [rate_limit (too_many_requests
                          [("Retry-After", "Wed, 21 Oct 2015 07:28:00 GMT")])]
           unreachable.

Definition two_pages : nat -> request -> reply :=
  scripted [documents_reply empty_page; documents_reply last_page] unreachable.

Definition no_data : nat -> request -> reply :=
  scripted [Body (JObj [("data", JNull)])] unreachable.

Definition two_company_pages : nat -> request -> reply :=
  scripted [companies_reply first_companies; companies_reply last_companies]
           unreachable.

(** *** Vocabulary of the further statements *)

(** A response like [documents_response p], with any value where the
    API puts the boolean [hasNextPage]. *)
Definition documents_response_with (p : page) (has_next : json) : json :=
  JObj [("data",
         JObj [("documents",
                JObj [("edges", JList (map edge (items p)));
                      ("pageInfo",
                       JObj [("endCursor", end_cursor p);
                             ("hasNextPage", has_next)])])])].

(** A response with edges and no [pageInfo]. *)
Definition documents_response_without_page_info (nodes : list json) : json :=
  JObj [("data",
         JObj [("documents", JObj [("edges", JList (map edge nodes))])])].

(** A page that the server sends after some rate limits: the 429
    responses, the waits their headers ask for, and the page. *)
Record burst : Type := mkBurst {
  limits : list http_error;
  waits : list Z;
  served : page
}.

Definition burst_replies (b : burst) : list reply :=
  (map rate_limit (limits b) ++ [documents_reply (served b)])%list.

(** The rate limits of [b] are well formed and within the budget of one
    call of [execute_query_with_retries]. *)
Definition within_budget (self : Client) (b : burst) : Prop :=
  Forall2 rate_limited (limits b) (waits b) /\
  Forall (fun d => 0 <= clamp self d) (waits b) /\
  Z.of_nat (List.length (limits b)) <= max_retries self.

(** The requests sent for the bursts: the request of each page once for
    every rate limit and once for the page. *)
Fixpoint burst_requests (client : Client) (query : string) (variables : dict)
    (bs : list burst) : list request :=
  match bs with
  | [] => []
  | b :: bs' =>
      (repeat (Request client query variables) (S (List.length (limits b)))
       ++ burst_requests client query
            (dict_set "after" (end_cursor (served b)) variables) bs')%list
  end.

Definition burst_sleeps (self : Client) (bs : list burst) : list Z :=
  flat_map (fun b => map (clamp self) (waits b)) bs.

(** The files after the rows of the well-formed documents [ds] have
    been appended to [f], document by document. *)
Definition appended (ds : list document) (focus_id : string) (f : files)
  : files :=
  mkFiles
    (docs_rows f ++ map documents_row ds)
    (denorm_rows f
     ++ flat_map (fun d => map (denormalised_row d)
                               (list_prod (focus_companies d focus_id)
                                          (d_topics d))) ds)
    (comp_rows f
     ++ flat_map (fun d => map (companies_row d) (focus_companies d focus_id))
                 ds)
    (tops_rows f ++ flat_map (fun d => map (topics_row d) (d_topics d)) ds).

(** Every file of [f'] starts with the rows of the same file of [f]. *)
Definition extends (f f' : files) : Prop :=
  forall t, exists more, rows_of t f' = (rows_of t f ++ more)%list.

(** A computation on the files that only appends rows, also when it
    raises. *)
Definition appends {A} (m : M files A) : Prop :=
  forall f, extends f (snd (m f)).

(** A JSON object without the key [k]. *)
Definition without_key (k : string) (obj : json) : json :=
  match obj with
  | JObj d => JObj (filter (fun kv => negb (String.eqb k (fst kv))) d)
  | other => other
  end.

(** The keys of a document whose values are copied into documents.csv. *)
Definition scalar_keys : list string :=
  ["id"; "harvestTime"; "sentiment"; "reach"; "publisher"; "domain";
   "source"; "author"; "url"; "title"].

(** The header [write_all_headers] has for a file. *)
Definition header_of (t : table) : list string :=
  match t with
  | documents_csv => docs_header
  | documents_denormalised_csv => denorm_header
  | documents_companies_csv => comp_header
  | documents_topics_csv => tops_header
  end.

(** Every pair of [best] is also in [all], and its name is a string
    that equals [name] once both are lowered. *)
Definition sound_matches (name : string) (ms : match_set) : Prop :=
  forall p, In p (best ms) ->
            In p (all ms) /\
            exists s, fst p = JStr s /\ str_lower s = str_lower name.

(** *** main of download_docs.py *)

(** [str.upper]. *)
Variable str_upper : string -> string.

(** The namespace [parser.parse_args()] returns. *)
Record Args : Type := mkArgs {
  args_focus_id : string;
  args_taxonomy_id : string;
  args_from_date : string;
  args_to_date : string;
  args_language : list string;
  args_media : list string;
  args_sentiment : list string;
  args_append : bool;
  args_overwrite : bool
}.

(** The four files in the order [main] looks for them. *)
Definition csv_types : list table :=
  [documents_csv; documents_denormalised_csv; documents_companies_csv;
   documents_topics_csv].

(** The names of the files that exist, [file_exists] being what
    [Path.exists] answers. *)
Definition existing_files (file_exists : table -> bool) : list string :=
  map file_name (filter file_exists csv_types).

Definition files_exist_message (existing : list string) : string :=
  "Files already exist: " ++ String.concat ", " existing
  ++ ". Use --overwrite to overwrite existing files"
  ++ " or use --append to append to existing files.".

Definition insight_of (args : Args) : json :=
  JObj [("focusId", JStr (args_focus_id args));
        ("taxonomyId", JStr (args_taxonomy_id args));
        ("fromDate", JStr (args_from_date args));
        ("toDate", JStr (args_to_date args));
        ("languageFilters",
         JList (map (fun language => JStr (str_lower language))
                    (args_language args)));
        ("mediaFilters",
         JList (map (fun media => JStr (str_upper media)) (args_media args)));
        ("sentimentFilters",
         JList (map (fun sentiment => JStr (str_upper sentiment))
                    (args_sentiment args)))].

(** A computation on the network, or on the files, run where both are
    at hand. *)
Definition with_world {A} (m : M world A) : M (world * files) A :=
  fun s => let (r, w') := m (fst s) in (r, (w', snd s)).

Definition with_files {A} (m : M files A) : M (world * files) A :=
  fun s => let (r, f') := m (snd s) in (r, (fst s, f')).

(** [for page in docs: write_docs(page, focus_id); total_docs += len(page)];
    [fuel] bounds the number of calls of [next]. *)
Fixpoint write_pages (fuel : nat) (client : Client) (focus_id : string)
    (docs : generator) (total_docs : Z) : M (world * files) Z :=
  match fuel with
  | O => lift OutOfFuel
  | S fuel' =>
      r <- with_world (next client docs) ;;
      match fst r with
      | StopIteration => ret total_docs
      | Yield page =>
          with_files (write_docs page focus_id) ;;;
          write_pages fuel' client focus_id (snd r)
                      (total_docs + Z.of_nat (List.length page))
      end
  end.

(** How [main] ends: after its last [print], with the total it prints;
    with an exception of the code it runs; with the [UnboundLocalError]
    of reading a local variable that was never assigned; or, in the
    model only, out of fuel. *)
Inductive ended : Type :=
| Finished_with (total_docs : Z)
| Uncaught (e : exn)
| UnboundLocalError (name : string)
| Unfinished.

(** The check of [main] before it downloads: [existing_files] is
    assigned, and looked at, only when [--overwrite] is not given.  The
    value is that of the local variable afterwards, [None] when it is
    still unbound. *)
Definition preflight (args : Args) (file_exists : table -> bool)
  : result (option (list string)) :=
  if negb (args_overwrite args) then
    let existing_files := existing_files file_exists in
    if negb (args_append args) && negb (List.length existing_files =? 0)%nat
    then Raise (Exception (files_exist_message existing_files))
    else Ok (Some existing_files)
  else Ok None.

(** [main], given the parsed arguments, the token of the environment
    and which files exist. *)
Definition main (args : Args) (env_token : string)
    (file_exists : table -> bool) (fuel : nat) (s : world * files)
  : ended * (world * files) :=
  match preflight args file_exists with
  | Raise e => (Uncaught e, s)
  | OutOfFuel => (Unfinished, s)
  | Ok existing_files =>
      let insight := insight_of args in
      let client := default_client env_token in
      let docs := get_documents client insight in
      let total_docs := 0 in
      let headers :=
        if args_append args then option_map write_all_headers existing_files
        else Some (write_all_headers []) in
      match headers with
      | None => (UnboundLocalError "existing_files", s)
      | Some write_headers_now =>
          match (with_files write_headers_now ;;;
                 write_pages fuel client (args_focus_id args) docs total_docs)
                  s
          with
          | (Ok total, s') => (Finished_with total, s')
          | (Raise e, s') => (Uncaught e, s')
          | (OutOfFuel, s') => (Unfinished, s')
          end
      end
  end.

(** A page of well-formed documents. *)
Record document_page : Type := mkDocumentPage {
  listed : list document;
  listed_cursor : json;
  listed_has_next : bool
}.

Definition page_of (p : document_page) : page :=
  mkPage (map document_json (listed p)) (listed_cursor p) (listed_has_next p).

(** The header rows [main] starts from: in append mode those of the
    files that do not exist yet, else all four. *)
Definition headers_written (args : Args) (file_exists : table -> bool)
    (f : files) : files :=
  snd (write_all_headers
         (if args_append args then existing_files file_exists else []) f).

(** The flags and the files let [main] go on to the download. *)
Definition proceeds (args : Args) (file_exists : table -> bool) : bool :=
  if args_overwrite args then negb (args_append args)
  else args_append args || negb (existsb file_exists csv_types).

(** The variables of the request that follows pages with the cursors
    [cursors]. *)
Definition variables_after (variables : dict) (cursors : list json) : dict :=
  fold_left (fun v cursor => dict_set "after" cursor v) cursors variables.

Definition documents_page_reply (p : document_page) : reply :=
  documents_reply (page_of p).

(** *** Sample data for the further examples *)

Definition errors_only : nat -> request -> reply :=
  scripted [Body documents_with_errors] unreachable.

Definition list_reply : nat -> request -> reply :=
  scripted [Body (JList [JInt 1])] unreachable.

Definition null_has_next : nat -> request -> reply :=
  scripted [Body (documents_response_with last_page JNull)] unreachable.

Definition no_page_info : nat -> request -> reply :=
  scripted [Body (documents_response_without_page_info
                    [document_json sample_document])] unreachable.

Definition first_burst : burst :=
  mkBurst [too_many_requests [("Retry-After", "5")]] [5] empty_page.

Definition last_burst : burst :=
  mkBurst [too_many_requests [("Retry-After", "120")];
           too_many_requests [("Retry-After", "1")]]
          [120; 1] last_page.

Definition busy_pages : nat -> request -> reply :=
  scripted (flat_map burst_replies [first_burst; last_burst]) unreachable.

Definition sample_taxonomies : list (string * json) :=
  [("Risk", JStr "T1"); ("risk", JStr "T2"); ("Reputation", JStr "T3")].

Definition taxonomies : nat -> request -> reply :=
  scripted [Body (taxonomies_response sample_taxonomies)] unreachable.

Definition busy_once : nat -> request -> reply :=
  scripted [rate_limit (too_many_requests [("Retry-After", "5")])] unreachable.

Definition sample_args : Args :=
  mkArgs "C1" "T1" "2024-01-01" "2024-01-31" ["EN"] ["news"] ["negative"]
         false false.

Definition overwrite_args : Args :=
  mkArgs "C1" "T1" "2024-01-01" "2024-01-31" [] [] [] false true.

Definition both_flags : Args :=
  mkArgs "C1" "T1" "2024-01-01" "2024-01-31" [] [] [] true true.

(** Only documents.csv exists. *)
Definition only_documents (t : table) : bool :=
  match t with
  | documents_csv => true
  | _ => false
  end.

Definition first_listing : document_page :=
  mkDocumentPage [sample_document; doubled_document] (JStr "cursor-1") true.

Definition last_listing : document_page :=
  mkDocumentPage [sample_document] (JStr "cursor-2") false.

Definition two_listings : nat -> request -> reply :=
  scripted [documents_page_reply first_listing;
            documents_page_reply last_listing] unreachable.

Definition listing_then_down : nat -> request -> reply :=
  scripted [documents_page_reply first_listing; unreachable] unreachable.

(** ** Properties of the client *)

Lemma serves_head k r rs req : serves k (r :: rs) -> server k req = r.
Proof.
  intros H. rewrite <- (Nat.add_0_r k). apply H. reflexivity.
Qed.

Lemma serves_tail k r rs : serves k (r :: rs) -> serves (S k) rs.
Proof.
  intros H i r' req Hi.
  replace (S k + i)%nat with (k + S i)%nat by lia.
  apply H. exact Hi.
Qed.

Lemma serves_app_l k rs rs' : serves k (rs ++ rs') -> serves k rs.
Proof.
  intros H i r req Hi. apply H.
  rewrite nth_error_app1; [exact Hi|].
  apply nth_error_Some. congruence.
Qed.

Lemma serves_app_r k rs rs' :
  serves k (rs ++ rs') -> serves (k + List.length rs) rs'.
Proof.
  intros H i r req Hi.
  replace (k + List.length rs + i)%nat with (k + (List.length rs + i))%nat by lia.
  apply H.
  rewrite nth_error_app2 by lia.
  replace (List.length rs + i - List.length rs)%nat with i by lia.
  exact Hi.
Qed.

Lemma execute_query_reply self query variables w :
  execute_query self query variables w =
  (match server (List.length (requests w)) (Request self query variables) with
   | Body result => Ok result
   | Fails e => Raise e
   end,
   after w (Request self query variables) 1 []).
Proof.
  unfold execute_query, after. cbn [repeat]. rewrite app_nil_r. reflexivity.
Qed.

Lemma after_after w req n ds m ds' :
  after (after w req n ds) req m ds' = after w req (n + m) (ds ++ ds').
Proof.
  unfold after. cbn [requests sleeps].
  rewrite repeat_app, !app_assoc. reflexivity.
Qed.

Lemma requests_after w req n ds :
  List.length (requests (after w req n ds)) = (List.length (requests w) + n)%nat.
Proof.
  unfold after. cbn [requests]. rewrite length_app, repeat_length. reflexivity.
Qed.

(** The reply that follows a run of rate limits meets the world those
    rate limits left. *)
Lemma serves_after w req req' es ds r :
  serves (List.length (requests w)) (map rate_limit es ++ [r]) ->
  server (List.length (requests (after w req (List.length es) ds))) req' = r.
Proof.
  intros Hsrv. rewrite requests_after.
  apply serves_app_r in Hsrv. rewrite length_map in Hsrv.
  eapply serves_head. exact Hsrv.
Qed.

(** One round of the loop on a reply that is not an [HTTPError]. *)
Lemma retry_loop_body self query variables n attempt w result :
  server (List.length (requests w)) (Request self query variables) = Body result ->
  retry_loop self query variables (S n) attempt w =
  (Ok result, after w (Request self query variables) 1 []).
Proof.
  intros H. cbn [retry_loop]. unfold try_except_HTTPError.
  rewrite execute_query_reply, H. reflexivity.
Qed.

(** One round of the loop on a failure that is not a rate limit. *)
Lemma retry_loop_fails self query variables n attempt w e :
  server (List.length (requests w)) (Request self query variables) = Fails e ->
  (forall h, e = HTTPError h -> err_code h <> 429) ->
  retry_loop self query variables (S n) attempt w =
  (Raise e, after w (Request self query variables) 1 []).
Proof.
  intros H Hcode. cbn [retry_loop]. unfold try_except_HTTPError.
  rewrite execute_query_reply, H.
  destruct e as [h| | | | | |]; try reflexivity.
  unfold bind, on_http_error.
  assert (Hh : err_code h <> 429) by (apply Hcode; reflexivity).
  apply Z.eqb_neq in Hh. rewrite Hh. reflexivity.
Qed.

(** One round of the loop on a rate limit with retries left. *)
Lemma retry_loop_sleeps self query variables n attempt w e d :
  server (List.length (requests w)) (Request self query variables) = rate_limit e ->
  rate_limited e d ->
  0 <= clamp self d ->
  attempt <> max_retries self ->
  retry_loop self query variables (S n) attempt w =
  retry_loop self query variables n (attempt + 1)
             (after w (Request self query variables) 1 [clamp self d]).
Proof.
  intros H [Hcode Hint] Hpos Hatt. cbn [retry_loop].
  unfold try_except_HTTPError at 1.
  rewrite execute_query_reply, H. unfold rate_limit.
  unfold bind at 1. unfold on_http_error.
  rewrite Hcode, Z.eqb_refl. cbn [negb].
  unfold bind at 1. unfold lift. rewrite Hint.
  apply Z.eqb_neq in Hatt. rewrite Hatt.
  unfold sleep. fold (clamp self d).
  apply Z.ltb_ge in Hpos. rewrite Hpos.
  f_equal. unfold after. cbn [requests sleeps repeat].
  rewrite app_nil_r. reflexivity.
Qed.

(** The loop through a run of rate limits that the budget covers: one
    request and one clamped sleep for each, then it goes on. *)
Lemma retry_loop_rate_limited self query variables es ds :
  Forall2 rate_limited es ds ->
  Forall (fun d => 0 <= clamp self d) ds ->
  forall n attempt w,
    serves (List.length (requests w)) (map rate_limit es) ->
    attempt + Z.of_nat (List.length es) <= max_retries self ->
    retry_loop self query variables (List.length es + n) attempt w =
    retry_loop self query variables n (attempt + Z.of_nat (List.length es))
               (after w (Request self query variables) (List.length es)
                      (map (clamp self) ds)).
Proof.
  induction 1 as [|e d es ds Hed Hrest IH]; intros Hpos n attempt w Hsrv Hbudget.
  - cbn [List.length map Nat.add Z.of_nat]. rewrite Z.add_0_r.
    unfold after. cbn [repeat]. rewrite !app_nil_r. destruct w; reflexivity.
  - inversion Hpos as [|? ? Hd Hds]; subst.
    cbn [List.length map] in *.
    change (S (List.length es) + n)%nat with (S (List.length es + n)).
    rewrite (retry_loop_sleeps self query variables _ attempt w e d);
      [ | eapply serves_head; exact Hsrv | exact Hed | exact Hd | lia ].
    rewrite IH; [ | exact Hds | | lia ].
    + rewrite after_after. f_equal. lia.
    + rewrite requests_after.
      replace (List.length (requests w) + 1)%nat
        with (S (List.length (requests w))) by lia.
      eapply serves_tail. exact Hsrv.
Qed.

Lemma clamp_le self d : clamp self d <= max_retry_wait self.
Proof. unfold clamp. lia. Qed.

Lemma rounds_of_budget self k :
  Z.of_nat k <= max_retries self ->
  exists n, Z.to_nat (max_retries self + 1) = (k + S n)%nat.
Proof.
  intros H. exists (Z.to_nat (max_retries self) - k)%nat. lia.
Qed.

(** C2: after N rate-limit responses whose [Retry-After] headers read
    [ds], N within [max_retries], and then a successful reply,
    [execute_query_with_retries] returns that reply; it has issued N + 1
    requests, all the same, and slept exactly N times, each time for the
    header's value clamped to [max_retry_wait], which it never exceeds. *)
Theorem retries_until_success self query variables es ds result w :
  Forall2 rate_limited es ds ->
  Forall (fun d => 0 <= clamp self d) ds ->
  Z.of_nat (List.length es) <= max_retries self ->
  serves (List.length (requests w)) (map rate_limit es ++ [Body result]) ->
  execute_query_with_retries self query variables w =
  (Ok result,
   after w (Request self query variables) (S (List.length es))
         (map (clamp self) ds)) /\
  List.length (map (clamp self) ds) = List.length es /\
  Forall (fun secs => secs <= max_retry_wait self) (map (clamp self) ds).
Proof.
  intros Hes Hpos Hbudget Hsrv. split; [|split].
  - unfold execute_query_with_retries.
    destruct (rounds_of_budget self _ Hbudget) as [n ->].
    rewrite (retry_loop_rate_limited self query variables es ds Hes Hpos);
      [ | eapply serves_app_l; exact Hsrv | lia ].
    rewrite (retry_loop_body self query variables n _ _ result).
    + rewrite after_after, app_nil_r. f_equal. f_equal. lia.
    + eapply serves_after. exact Hsrv.
  - rewrite length_map. symmetry. eapply Forall2_length. exact Hes.
  - apply Forall_map, Forall_forall. intros d _. apply clamp_le.
Qed.

(** The error raised once the retries are used up. *)
Lemma retry_loop_exhausted self query variables n w e d :
  server (List.length (requests w)) (Request self query variables) = rate_limit e ->
  rate_limited e d ->
  retry_loop self query variables (S n) (max_retries self) w =
  (Raise (HTTPError (mkHTTPError (err_url e) (err_code e) _max_retries_msg
                                 (err_hdrs e) (err_fp e))),
   after w (Request self query variables) 1 []).
Proof.
  intros H [Hcode Hint]. cbn [retry_loop].
  unfold try_except_HTTPError at 1.
  rewrite execute_query_reply, H. unfold rate_limit.
  unfold bind at 1. unfold on_http_error.
  rewrite Hcode, Z.eqb_refl. cbn [negb].
  unfold bind at 1. unfold lift. rewrite Hint, Z.eqb_refl. reflexivity.
Qed.

(** C3: after [max_retries + 1] rate-limit responses in a row,
    [execute_query_with_retries] raises an [HTTPError] with the message
    [Maximum number of retries exceeded] and the URL, status code,
    headers and body of the last response; it has issued exactly
    [max_retries + 1] requests and slept once after each but the last. *)
Theorem retries_exhausted self query variables es ds e d w :
  Forall2 rate_limited es ds ->
  Forall (fun d => 0 <= clamp self d) ds ->
  rate_limited e d ->
  Z.of_nat (List.length es) = max_retries self ->
  serves (List.length (requests w)) (map rate_limit (es ++ [e])) ->
  execute_query_with_retries self query variables w =
  (Raise (HTTPError (mkHTTPError (err_url e) (err_code e) _max_retries_msg
                                 (err_hdrs e) (err_fp e))),
   after w (Request self query variables) (List.length (es ++ [e]))
         (map (clamp self) ds)) /\
  Z.of_nat (List.length (es ++ [e])) = max_retries self + 1.
Proof.
  intros Hes Hpos He Hlen Hsrv. rewrite map_app in Hsrv. split.
  - unfold execute_query_with_retries.
    assert (Hbudget : Z.of_nat (List.length es) <= max_retries self) by lia.
    destruct (rounds_of_budget self _ Hbudget) as [n ->].
    rewrite (retry_loop_rate_limited self query variables es ds Hes Hpos);
      [ | eapply serves_app_l; exact Hsrv | lia ].
    rewrite Z.add_0_l, Hlen.
    rewrite (retry_loop_exhausted self query variables n _ e d).
    + rewrite after_after, app_nil_r, length_app. reflexivity.
    + eapply serves_after. exact Hsrv.
    + exact He.
  - rewrite length_app. cbn [List.length]. lia.
Qed.

(** C4: a failure that is not an [HTTPError] with status 429 leaves
    [execute_query_with_retries] as it came, at its first occurrence:
    the request that met it is the last one issued, and no sleep follows
    it (the only sleeps are those after the rate limits before it). *)
Theorem other_errors_propagate self query variables es ds e w :
  Forall2 rate_limited es ds ->
  Forall (fun d => 0 <= clamp self d) ds ->
  Z.of_nat (List.length es) <= max_retries self ->
  (forall h, e = HTTPError h -> err_code h <> 429) ->
  serves (List.length (requests w)) (map rate_limit es ++ [Fails e]) ->
  execute_query_with_retries self query variables w =
  (Raise e,
   after w (Request self query variables) (S (List.length es))
         (map (clamp self) ds)).
Proof.
  intros Hes Hpos Hbudget Hother Hsrv.
  unfold execute_query_with_retries.
  destruct (rounds_of_budget self _ Hbudget) as [n ->].
  rewrite (retry_loop_rate_limited self query variables es ds Hes Hpos);
    [ | eapply serves_app_l; exact Hsrv | lia ].
  rewrite (retry_loop_fails self query variables n _ _ e).
  - rewrite after_after, app_nil_r. f_equal. f_equal. lia.
  - eapply serves_after. exact Hsrv.
  - exact Hother.
Qed.

(** With a negative [max_retries] the range of the loop is empty: no
    request is sent and the function returns [None]. *)
Lemma no_attempt self query variables w :
  max_retries self < 0 ->
  execute_query_with_retries self query variables w = (Ok JNull, w).
Proof.
  intros H. unfold execute_query_with_retries.
  replace (Z.to_nat (max_retries self + 1)) with O by lia. reflexivity.
Qed.

(** One round of the loop on a rate limit whose header does not parse:
    the error of [int] leaves the loop, whatever the attempt number. *)
Lemma retry_loop_bad_header self query variables n attempt w e x :
  server (List.length (requests w)) (Request self query variables) = rate_limit e ->
  err_code e = 429 ->
  int_of (headers_get "Retry-After" (err_hdrs e)) = Raise x ->
  retry_loop self query variables (S n) attempt w =
  (Raise x, after w (Request self query variables) 1 []).
Proof.
  intros H Hcode Hint. cbn [retry_loop].
  unfold try_except_HTTPError at 1.
  rewrite execute_query_reply, H. unfold rate_limit.
  unfold bind at 1. unfold on_http_error.
  rewrite Hcode, Z.eqb_refl. cbn [negb].
  unfold bind at 1. unfold lift. rewrite Hint. reflexivity.
Qed.

Lemma int_of_raises x :
  x = None \/ (exists s, x = Some s /\ py_int s = None) ->
  exists e, int_of x = Raise e /\ (e = TypeError \/ e = ValueError).
Proof.
  intros [-> | [s [-> Hs]]]; cbn [int_of].
  - exists TypeError. auto.
  - rewrite Hs. exists ValueError. auto.
Qed.

(** C10: the [Retry-After] header of a 429 response is parsed before the
    retry budget is looked at.  When it is absent or not an integer,
    [execute_query_with_retries] raises [TypeError] or [ValueError] at
    that response, on the last attempt as on any other: there is no
    retry, no sleep for that response, and no max-retries error. *)
Theorem bad_retry_after_raises self query variables es ds e w :
  Forall2 rate_limited es ds ->
  Forall (fun d => 0 <= clamp self d) ds ->
  Z.of_nat (List.length es) <= max_retries self ->
  err_code e = 429 ->
  headers_get "Retry-After" (err_hdrs e) = None \/
  (exists s, headers_get "Retry-After" (err_hdrs e) = Some s /\
             py_int s = None) ->
  serves (List.length (requests w)) (map rate_limit es ++ [rate_limit e]) ->
  exists x,
    (x = TypeError \/ x = ValueError) /\
    execute_query_with_retries self query variables w =
    (Raise x,
     after w (Request self query variables) (S (List.length es))
           (map (clamp self) ds)).
Proof.
  intros Hes Hpos Hbudget Hcode Hbad Hsrv.
  destruct (int_of_raises _ Hbad) as [x [Hx Hkind]].
  exists x. split; [exact Hkind|].
  unfold execute_query_with_retries.
  destruct (rounds_of_budget self _ Hbudget) as [n ->].
  rewrite (retry_loop_rate_limited self query variables es ds Hes Hpos);
    [ | eapply serves_app_l; exact Hsrv | lia ].
  rewrite (retry_loop_bad_header self query variables n _ _ e x).
  - rewrite after_after, app_nil_r. f_equal. f_equal. lia.
  - eapply serves_after. exact Hsrv.
  - exact Hcode.
  - exact Hx.
Qed.

(** ** Properties of get_documents *)

Lemma execute_query_with_retries_body self query variables w result :
  0 <= max_retries self ->
  server (List.length (requests w)) (Request self query variables) = Body result ->
  execute_query_with_retries self query variables w =
  (Ok result, after w (Request self query variables) 1 []).
Proof.
  intros Hbudget H. unfold execute_query_with_retries.
  destruct (rounds_of_budget self 0) as [n ->]; [lia|].
  cbn [Nat.add]. apply retry_loop_body. exact H.
Qed.

Lemma map_m_nodes {S} (xs : list json) (s : S) :
  map_m (fun e => getitem e "node") (map edge xs) s = (Ok xs, s).
Proof.
  induction xs as [|x xs IH]; [reflexivity|].
  cbn [map map_m]. unfold bind at 1. cbn.
  unfold bind. rewrite IH. reflexivity.
Qed.

(** A call of [next] that is sent a well-formed page. *)
Lemma next_page_yields client np variables pc w p :
  0 <= max_retries client ->
  truthy np = true ->
  server (List.length (requests w)) (Request client documents_query variables)
  = documents_reply p ->
  next client (Suspended np variables pc) w =
  (Ok (Yield (items p),
       Suspended (JBool (has_next_page p))
                 (dict_set "after" (end_cursor p) variables) (pc + 1)),
   after w (Request client documents_query variables) 1 []).
Proof.
  intros Hbudget Hnp Hsrv. unfold next. rewrite Hnp.
  unfold bind at 1.
  rewrite (execute_query_with_retries_body _ _ _ _ _ Hbudget Hsrv).
  unfold documents_response, page_info.
  cbn [bind get getitem3 getitem2 getitem iter lift
       py_get py_getitem py_iter lookup String.eqb Ascii.eqb Bool.eqb
       is_none negb].
  unfold bind. rewrite map_m_nodes. reflexivity.
Qed.

(** A call of [next] once the last page said there is no next page. *)
Lemma next_after_last client np variables pc w :
  truthy np = false ->
  next client (Suspended np variables pc) w = (Ok (StopIteration, Finished), w).
Proof.
  intros Hnp. unfold next. rewrite Hnp. reflexivity.
Qed.

Lemma pages_of_step fuel client g w :
  pages_of (S fuel) client g w =
  match next client g w with
  | (Ok (Yield batch, g'), w') =>
      match pages_of fuel client g' w' with
      | (Ok rest, w'') => (Ok (batch :: rest), w'')
      | (Raise e, w'') => (Raise e, w'')
      | (OutOfFuel, w'') => (OutOfFuel, w'')
      end
  | (Ok (StopIteration, _), w') => (Ok [], w')
  | (Raise e, w') => (Raise e, w')
  | (OutOfFuel, w') => (OutOfFuel, w')
  end.
Proof.
  cbn [pages_of]. unfold bind at 1.
  destruct (next client g w) as [[[[batch|] g']|e|] w']; reflexivity.
Qed.

Lemma pages_of_pages client ps last :
  0 <= max_retries client ->
  Forall (fun p => has_next_page p = true) ps ->
  has_next_page last = false ->
  forall fuel variables pc w,
    serves (List.length (requests w)) (map documents_reply (ps ++ [last])) ->
    (List.length ps + 2 <= fuel)%nat ->
    pages_of fuel client (Suspended (JBool true) variables pc) w =
    (Ok (map items (ps ++ [last])),
     mkWorld (requests w ++ paged_requests client documents_query variables
                     (map end_cursor (ps ++ [last])))
             (sleeps w)).
Proof.
  intros Hbudget Hps Hlast.
  induction Hps as [|p ps Hp Hps IH]; intros fuel variables pc w Hsrv Hfuel.
  - destruct fuel as [|[|fuel]]; cbn [List.length] in Hfuel; try lia.
    cbn [app map paged_requests] in *.
    rewrite pages_of_step.
    rewrite (next_page_yields client (JBool true) variables pc w last
                              Hbudget eq_refl);
      [ | eapply serves_head; exact Hsrv ].
    rewrite pages_of_step.
    rewrite next_after_last by (rewrite Hlast; reflexivity).
    unfold after. cbn [requests sleeps repeat].
    rewrite app_nil_r. reflexivity.
  - destruct fuel as [|fuel]; cbn [List.length] in Hfuel; try lia.
    cbn [app map paged_requests] in *.
    rewrite pages_of_step.
    rewrite (next_page_yields client (JBool true) variables pc w p
                              Hbudget eq_refl);
      [ | eapply serves_head; exact Hsrv ].
    rewrite Hp, IH.
    + unfold after. cbn [requests sleeps repeat].
      rewrite app_nil_r, <- app_assoc. reflexivity.
    + rewrite requests_after.
      replace (List.length (requests w) + 1)%nat
        with (S (List.length (requests w))) by lia.
      eapply serves_tail. exact Hsrv.
    + lia.
Qed.

Lemma paged_requests_length client query variables cursors :
  List.length (paged_requests client query variables cursors)
  = List.length cursors.
Proof.
  revert variables. induction cursors as [|c cursors IH]; intros variables;
    cbn [paged_requests List.length]; [reflexivity|].
  rewrite IH. reflexivity.
Qed.

(** C1: when the API sends the pages [ps ++ [last]], where every page of
    [ps] has [hasNextPage] true and [last] has it false, iterating over
    [get_documents] issues one request per page and yields one batch per
    page, the items of that page, whatever their number (none as well);
    it stops after [last], normally, and not before. *)
Theorem one_batch_per_page client insight ps last fuel :
  0 <= max_retries client ->
  Forall (fun p => has_next_page p = true) ps ->
  has_next_page last = false ->
  serves 0 (map documents_reply (ps ++ [last])) ->
  (List.length ps + 2 <= fuel)%nat ->
  let variables := [("insight", insight); ("first", JInt (page_size client))] in
  pages_of fuel client (get_documents client insight) fresh =
  (Ok (map items (ps ++ [last])),
   mkWorld (paged_requests client documents_query variables
                     (map end_cursor (ps ++ [last]))) []) /\
  List.length (map items (ps ++ [last])) = List.length (ps ++ [last]) /\
  List.length (paged_requests client documents_query variables
                     (map end_cursor (ps ++ [last])))
  = List.length (ps ++ [last]).
Proof.
  intros Hbudget Hps Hlast Hsrv Hfuel variables. split; [|split].
  - unfold get_documents.
    rewrite (pages_of_pages client ps last Hbudget Hps Hlast); auto.
  - apply length_map.
  - rewrite paged_requests_length. apply length_map.
Qed.

(** C9: a response that is a dict with neither [errors] nor [data] (the
    key absent, or its value [null]) ends the iteration: the call of
    [next] that receives it raises nothing and yields nothing, the
    generator is finished, and a loop over it collects no batch. *)
Theorem no_data_stops client np variables pc w response :
  0 <= max_retries client ->
  truthy np = true ->
  server (List.length (requests w)) (Request client documents_query variables)
  = Body response ->
  py_get response "errors" = Ok JNull ->
  py_get response "data" = Ok JNull ->
  next client (Suspended np variables pc) w =
  (Ok (StopIteration, Finished),
   after w (Request client documents_query variables) 1 []) /\
  (forall fuel,
      pages_of (S fuel) client (Suspended np variables pc) w =
      (Ok [], after w (Request client documents_query variables) 1 [])) /\
  (forall w', next client Finished w' = (Ok (StopIteration, Finished), w')).
Proof.
  intros Hbudget Hnp Hsrv Herr Hdata.
  assert (Hnext : next client (Suspended np variables pc) w =
                  (Ok (StopIteration, Finished),
                   after w (Request client documents_query variables) 1 [])).
  { unfold next. rewrite Hnp. unfold bind at 1.
    rewrite (execute_query_with_retries_body _ _ _ _ _ Hbudget Hsrv).
    unfold bind at 1. unfold get at 1. unfold lift. rewrite Herr.
    cbn [is_none negb].
    unfold bind at 1. unfold get at 1. unfold lift. rewrite Hdata.
    reflexivity. }
  split; [exact Hnext|]. split.
  - intros fuel. rewrite pages_of_step, Hnext. reflexivity.
  - reflexivity.
Qed.

Lemma join_strings sep ms : join sep (map JStr ms) = Ok (String.concat sep ms).
Proof.
  induction ms as [|m ms IH]; [reflexivity|].
  cbn [map]. destruct ms as [|m' ms]; [reflexivity|].
  cbn [map] in *. cbn [join String.concat]. cbn [join] in IH.
  rewrite IH. reflexivity.
Qed.

Lemma map_m_messages {S} (es : list json) (ms : list string) (s : S) :
  Forall2 (fun e m => py_getitem e "message" = Ok (JStr m)) es ms ->
  map_m (fun e => getitem e "message") es s = (Ok (map JStr ms), s).
Proof.
  induction 1 as [|e m es ms He Hrest IH]; [reflexivity|].
  cbn [map map_m]. unfold bind at 1. unfold getitem at 1. unfold lift.
  rewrite He. unfold bind. rewrite IH. reflexivity.
Qed.

(** X3: a response whose [errors] is a list of errors with messages
    [ms] (an empty list as well) makes [next] raise, before [data] is
    looked at and with no request after it, an exception whose message
    holds every message and the serialised errors. *)
Lemma errors_raise client np variables pc w response es ms :
  0 <= max_retries client ->
  truthy np = true ->
  server (List.length (requests w)) (Request client documents_query variables)
  = Body response ->
  py_get response "errors" = Ok (JList es) ->
  Forall2 (fun e m => py_getitem e "message" = Ok (JStr m)) es ms ->
  next client (Suspended np variables pc) w =
  (Raise (Exception (graphql_err_message ms (JList es))),
   after w (Request client documents_query variables) 1 []).
Proof.
  intros Hbudget Hnp Hsrv Herr Hms.
  unfold next. rewrite Hnp. unfold bind at 1.
  rewrite (execute_query_with_retries_body _ _ _ _ _ Hbudget Hsrv).
  unfold bind at 1. unfold get at 1. unfold lift. rewrite Herr.
  cbn [is_none negb].
  unfold bind at 1. unfold graphql_err.
  unfold bind at 1. unfold iter, lift. cbn [py_iter].
  unfold bind at 1. rewrite (map_m_messages es ms _ Hms).
  unfold bind at 1. rewrite join_strings. reflexivity.
Qed.

(** ** Properties of write_docs *)

Lemma for_each_cons {S A} (x : A) (xs : list A) (body : A -> M S unit) s s' :
  body x s = (Ok tt, s') ->
  for_each (x :: xs) body s = for_each xs body s'.
Proof.
  intros H. cbn [for_each]. unfold bind. rewrite H. reflexivity.
Qed.

Lemma write_denorm_row_row d c t f :
  write_denorm_row (core_fields d) (company_json c) (topic_json t) f =
  (Ok tt,
   mkFiles (docs_rows f) (denorm_rows f ++ [denormalised_row d (c, t)])
           (comp_rows f) (tops_rows f)).
Proof. reflexivity. Qed.

Lemma write_denorm_row_all d c ts : forall f,
  for_each (map topic_json ts)
           (write_denorm_row (core_fields d) (company_json c)) f =
  (Ok tt,
   mkFiles (docs_rows f)
           (denorm_rows f ++ map (fun t => denormalised_row d (c, t)) ts)
           (comp_rows f) (tops_rows f)).
Proof.
  induction ts as [|t ts IH]; intros f.
  - cbn [map for_each]. rewrite app_nil_r. destruct f; reflexivity.
  - cbn [map]. rewrite (for_each_cons _ _ _ _ _ (write_denorm_row_row d c t f)).
    rewrite IH. cbn [docs_rows denorm_rows comp_rows tops_rows].
    rewrite <- app_assoc. reflexivity.
Qed.

Lemma write_denorm_rows_company d focus_id c f :
  write_denorm_rows (document_json d) (core_fields d) focus_id
                    (company_json c) f =
  (Ok tt,
   mkFiles (docs_rows f)
           (denorm_rows f
            ++ if py_eq_str (company_id c) focus_id
               then map (fun t => denormalised_row d (c, t)) (d_topics d)
               else [])
           (comp_rows f) (tops_rows f)).
Proof.
  unfold write_denorm_rows.
  unfold bind at 1. cbn [getitem2 getitem bind lift company_json py_getitem
                         lookup String.eqb Ascii.eqb Bool.eqb].
  destruct (py_eq_str (company_id c) focus_id).
  - unfold bind at 1.
    cbn [getitem lift document_json py_getitem lookup String.eqb Ascii.eqb
         Bool.eqb].
    unfold bind at 1. cbn [iter lift py_iter].
    apply write_denorm_row_all.
  - rewrite app_nil_r. destruct f; reflexivity.
Qed.

Lemma write_denorm_rows_all d focus_id cs : forall f,
  for_each (map company_json cs)
           (write_denorm_rows (document_json d) (core_fields d) focus_id) f =
  (Ok tt,
   mkFiles (docs_rows f)
           (denorm_rows f
            ++ map (denormalised_row d)
                   (list_prod
                      (filter (fun c => py_eq_str (company_id c) focus_id) cs)
                      (d_topics d)))
           (comp_rows f) (tops_rows f)).
Proof.
  induction cs as [|c cs IH]; intros f.
  - cbn [map for_each filter list_prod]. rewrite app_nil_r.
    destruct f; reflexivity.
  - cbn [map].
    rewrite (for_each_cons _ _ _ _ _ (write_denorm_rows_company d focus_id c f)).
    rewrite IH. cbn [docs_rows denorm_rows comp_rows tops_rows filter].
    destruct (py_eq_str (company_id c) focus_id).
    + cbn [list_prod]. rewrite map_app, map_map, <- app_assoc. reflexivity.
    + rewrite app_nil_r. reflexivity.
Qed.

Lemma write_comp_row_company d focus_id c f :
  write_comp_row (document_json d) focus_id (company_json c) f =
  (Ok tt,
   mkFiles (docs_rows f) (denorm_rows f)
           (comp_rows f
            ++ if py_eq_str (company_id c) focus_id
               then [companies_row d c] else [])
           (tops_rows f)).
Proof.
  unfold write_comp_row.
  unfold bind at 1. cbn [getitem2 getitem bind lift company_json py_getitem
                         lookup String.eqb Ascii.eqb Bool.eqb].
  destruct (py_eq_str (company_id c) focus_id).
  - reflexivity.
  - rewrite app_nil_r. destruct f; reflexivity.
Qed.

Lemma write_comp_row_all d focus_id cs : forall f,
  for_each (map company_json cs) (write_comp_row (document_json d) focus_id) f =
  (Ok tt,
   mkFiles (docs_rows f) (denorm_rows f)
           (comp_rows f
            ++ map (companies_row d)
                   (filter (fun c => py_eq_str (company_id c) focus_id) cs))
           (tops_rows f)).
Proof.
  induction cs as [|c cs IH]; intros f.
  - cbn [map for_each filter]. rewrite app_nil_r. destruct f; reflexivity.
  - cbn [map].
    rewrite (for_each_cons _ _ _ _ _ (write_comp_row_company d focus_id c f)).
    rewrite IH. cbn [docs_rows denorm_rows comp_rows tops_rows filter].
    destruct (py_eq_str (company_id c) focus_id).
    + cbn [map]. rewrite <- app_assoc. reflexivity.
    + rewrite app_nil_r. reflexivity.
Qed.

Lemma write_tops_row_row d t f :
  write_tops_row (document_json d) (topic_json t) f =
  (Ok tt,
   mkFiles (docs_rows f) (denorm_rows f) (comp_rows f)
           (tops_rows f ++ [topics_row d t])).
Proof. reflexivity. Qed.

Lemma write_tops_row_all d ts : forall f,
  for_each (map topic_json ts) (write_tops_row (document_json d)) f =
  (Ok tt,
   mkFiles (docs_rows f) (denorm_rows f) (comp_rows f)
           (tops_rows f ++ map (topics_row d) ts)).
Proof.
  induction ts as [|t ts IH]; intros f.
  - cbn [map for_each]. rewrite app_nil_r. destruct f; reflexivity.
  - cbn [map].
    rewrite (for_each_cons _ _ _ _ _ (write_tops_row_row d t f)).
    rewrite IH. cbn [docs_rows denorm_rows comp_rows tops_rows].
    rewrite <- app_assoc. reflexivity.
Qed.

(** What [write_docs] does with one well-formed document. *)
Lemma write_doc_rows d focus_id f :
  write_doc (document_json d) focus_id f =
  (Ok tt,
   mkFiles (docs_rows f ++ [documents_row d])
           (denorm_rows f
            ++ map (denormalised_row d)
                   (list_prod (focus_companies d focus_id) (d_topics d)))
           (comp_rows f ++ map (companies_row d) (focus_companies d focus_id))
           (tops_rows f ++ map (topics_row d) (d_topics d))).
Proof.
  unfold write_doc.
  cbn [bind getitem lift document_json py_getitem lookup String.eqb Ascii.eqb
       Bool.eqb iter py_iter writerow rows_of set_rows].
  fold (document_json d). fold (core_fields d).
  unfold bind at 1. rewrite write_denorm_rows_all.
  cbn [bind getitem lift document_json py_getitem lookup String.eqb Ascii.eqb
       Bool.eqb iter py_iter].
  fold (document_json d).
  unfold bind at 1. rewrite write_comp_row_all.
  cbn [bind getitem lift document_json py_getitem lookup String.eqb Ascii.eqb
       Bool.eqb iter py_iter].
  fold (document_json d).
  rewrite write_tops_row_all.
  reflexivity.
Qed.

Lemma write_docs_one d focus_id f :
  write_docs [document_json d] focus_id f =
  (Ok tt,
   mkFiles (docs_rows f ++ [documents_row d])
           (denorm_rows f
            ++ map (denormalised_row d)
                   (list_prod (focus_companies d focus_id) (d_topics d)))
           (comp_rows f ++ map (companies_row d) (focus_companies d focus_id))
           (tops_rows f ++ map (topics_row d) (d_topics d))).
Proof.
  unfold write_docs. cbn [for_each]. unfold bind.
  rewrite write_doc_rows. reflexivity.
Qed.

(** C6: for a document with M company relations whose company id equals
    the focus id and T topics, one call of [write_docs] appends 1 row to
    documents.csv, M rows to documents_companies.csv (one per relation
    with the focus), T rows to documents_topics.csv (one per topic) and
    M * T rows to documents_denormalised.csv: one for every pair of the
    cross product of the relations with the focus and the topics, so a
    relation that occurs twice has its rows twice. *)
Theorem rows_per_document d focus_id f :
  let docs := [documents_row d] in
  let denorm :=
    map (denormalised_row d)
        (list_prod (focus_companies d focus_id) (d_topics d)) in
  let comp := map (companies_row d) (focus_companies d focus_id) in
  let tops := map (topics_row d) (d_topics d) in
  write_docs [document_json d] focus_id f =
  (Ok tt,
   mkFiles (docs_rows f ++ docs) (denorm_rows f ++ denorm)
           (comp_rows f ++ comp) (tops_rows f ++ tops)) /\
  List.length docs = 1%nat /\
  List.length comp = List.length (focus_companies d focus_id) /\
  List.length tops = List.length (d_topics d) /\
  List.length denorm =
  (List.length (focus_companies d focus_id) * List.length (d_topics d))%nat.
Proof.
  cbv zeta. split; [apply write_docs_one|].
  rewrite !length_map, length_prod. auto.
Qed.



(** ** Properties of search_companies *)

Lemma add_company_node {S} name acc c (s : S) :
  add_company name acc (edge (company_node c)) s =
  (Ok (mkMatchSet
         (best acc ++ if exact_match name c then [name_id c] else [])
         (all acc ++ [name_id c])),
   s).
Proof.
  unfold add_company, exact_match.
  cbn [bind getitem2 getitem lift edge company_node py_getitem lookup
       String.eqb Ascii.eqb Bool.eqb lower ret best all].
  destruct (String.eqb (str_lower (fst c)) (str_lower name)).
  - reflexivity.
  - rewrite app_nil_r. reflexivity.
Qed.

Lemma add_company_all {S} name cs : forall acc (s : S),
  fold_m (add_company name) (map (fun c => edge (company_node c)) cs) acc s =
  (Ok (mkMatchSet (best acc ++ map name_id (filter (exact_match name) cs))
                  (all acc ++ map name_id cs)),
   s).
Proof.
  induction cs as [|c cs IH]; intros acc s.
  - cbn [map fold_m filter]. rewrite !app_nil_r. destruct acc; reflexivity.
  - cbn [map fold_m]. unfold bind. rewrite add_company_node, IH.
    cbn [best all filter].
    destruct (exact_match name c); cbn [map]; rewrite <- !app_assoc;
      reflexivity.
Qed.

(** One round of the loop of [search_companies] on a well-formed page. *)
Lemma search_companies_round fuel client name v np acc w p :
  0 <= max_retries client ->
  truthy np = true ->
  server (List.length (requests w)) (Request client companies_query v)
  = companies_reply p ->
  search_companies_loop (S fuel) client name v np acc w =
  search_companies_loop fuel client name
    (dict_set "after" (found_cursor p) v) (JBool (found_has_next p))
    (mkMatchSet (best acc ++ map name_id (filter (exact_match name) (found p)))
                (all acc ++ map name_id (found p)))
    (after w (Request client companies_query v) 1 []).
Proof.
  intros Hbudget Hnp Hsrv. cbn [search_companies_loop]. rewrite Hnp.
  unfold bind at 1.
  rewrite (execute_query_with_retries_body _ _ _ _ _ Hbudget Hsrv).
  unfold companies_response, page_info.
  cbn [bind getitem4 getitem3 getitem2 getitem iter lift
       py_getitem py_iter lookup String.eqb Ascii.eqb Bool.eqb].
  unfold bind at 1. rewrite add_company_all. reflexivity.
Qed.

Lemma search_companies_pages client name ps last :
  0 <= max_retries client ->
  Forall (fun p => found_has_next p = true) ps ->
  found_has_next last = false ->
  forall fuel v acc w,
    serves (List.length (requests w)) (map companies_reply (ps ++ [last])) ->
    (List.length ps + 1 <= fuel)%nat ->
    search_companies_loop fuel client name v (JBool true) acc w =
    (Ok (mkMatchSet
           (best acc ++ map name_id (filter (exact_match name)
                                            (flat_map found (ps ++ [last]))))
           (all acc ++ map name_id (flat_map found (ps ++ [last])))),
     mkWorld (requests w ++ paged_requests client companies_query v
                                           (map found_cursor (ps ++ [last])))
             (sleeps w)).
Proof.
  intros Hbudget Hps Hlast.
  induction Hps as [|p ps Hp Hps IH]; intros fuel v acc w Hsrv Hfuel.
  - destruct fuel as [|fuel]; cbn [List.length] in Hfuel; try lia.
    cbn [app map paged_requests flat_map] in *.
    rewrite (search_companies_round fuel client name v (JBool true) acc w last
                                    Hbudget eq_refl);
      [ | eapply serves_head; exact Hsrv ].
    rewrite Hlast.
    destruct fuel; cbn [search_companies_loop truthy];
      unfold ret, after; cbn [requests sleeps repeat];
      rewrite !app_nil_r; reflexivity.
  - destruct fuel as [|fuel]; cbn [List.length] in Hfuel; try lia.
    cbn [app map paged_requests flat_map] in *.
    rewrite (search_companies_round fuel client name v (JBool true) acc w p
                                    Hbudget eq_refl);
      [ | eapply serves_head; exact Hsrv ].
    rewrite Hp, IH.
    + unfold after. cbn [requests sleeps repeat best all].
      rewrite filter_app, !map_app, !app_nil_r, <- !app_assoc. reflexivity.
    + rewrite requests_after.
      replace (List.length (requests w) + 1)%nat
        with (S (List.length (requests w))) by lia.
      eapply serves_tail. exact Hsrv.
    + lia.
Qed.

(** C8: when the API sends the pages [ps ++ [last]] of companies, the
    last one alone without a next page, [search_companies] returns in
    [all] the (name, id) of every node of every page, in order, and in
    [best] those of them whose name equals the search term once both
    are lowered; so when exactly one node matches, [best] has length 1
    and [all] at least 1. *)
Theorem search_companies_partitions client name ps last fuel :
  0 <= max_retries client ->
  Forall (fun p => found_has_next p = true) ps ->
  found_has_next last = false ->
  serves 0 (map companies_reply (ps ++ [last])) ->
  (List.length ps + 1 <= fuel)%nat ->
  let returned := flat_map found (ps ++ [last]) in
  let result :=
    mkMatchSet (map name_id (filter (exact_match name) returned))
               (map name_id returned) in
  search_companies fuel client name fresh =
  (Ok result,
   mkWorld (paged_requests client companies_query
              [("first", JInt (page_size client)); ("search", JStr name)]
              (map found_cursor (ps ++ [last])))
           []) /\
  (List.length (filter (exact_match name) returned) = 1%nat ->
   List.length (best result) = 1%nat /\ (1 <= List.length (all result))%nat).
Proof.
  intros Hbudget Hps Hlast Hsrv Hfuel returned result. split.
  - unfold search_companies.
    rewrite (search_companies_pages client name ps last Hbudget Hps Hlast);
      auto.
  - intros Hone. subst result. cbn [best all]. rewrite !length_map.
    split; [exact Hone|].
    pose proof (filter_length_le (exact_match name) returned). lia.
Qed.

(** ** Further properties of the client *)

(** One round of the loop on a rate limit whose clamped wait is
    negative, with retries left: [time.sleep] raises. *)
Lemma retry_loop_negative_wait self query variables n attempt w e d :
  server (List.length (requests w)) (Request self query variables) = rate_limit e ->
  rate_limited e d ->
  clamp self d < 0 ->
  attempt <> max_retries self ->
  retry_loop self query variables (S n) attempt w =
  (Raise ValueError, after w (Request self query variables) 1 []).
Proof.
  intros H [Hcode Hint] Hneg Hatt. cbn [retry_loop].
  unfold try_except_HTTPError at 1.
  rewrite execute_query_reply, H. unfold rate_limit.
  unfold bind at 1. unfold on_http_error.
  rewrite Hcode, Z.eqb_refl. cbn [negb].
  unfold bind at 1. unfold lift. rewrite Hint.
  apply Z.eqb_neq in Hatt. rewrite Hatt.
  unfold sleep. fold (clamp self d).
  apply Z.ltb_lt in Hneg. rewrite Hneg. reflexivity.
Qed.

Lemma after_cons w req k c ds :
  after (after w req 1 [c]) req k ds = after w req (S k) (c :: ds).
Proof. rewrite after_after. reflexivity. Qed.

(** Whatever the server does, the loop with [n] rounds left issues at
    most [n] requests, all of them the same, and sleeps only between two
    requests, each time for a wait between 0 and [max_retry_wait]. *)
Lemma retry_loop_bounded self query variables :
  forall n attempt w,
    attempt + Z.of_nat n = max_retries self + 1 ->
    exists k ds,
      snd (retry_loop self query variables n attempt w) =
      after w (Request self query variables) k ds /\
      (k <= n)%nat /\ (n = O \/ 1 <= k)%nat /\
      (List.length ds <= Nat.pred k)%nat /\
      Forall (fun secs => 0 <= secs <= max_retry_wait self) ds.
Proof.
  induction n as [|n IH]; intros attempt w Hinv.
  - exists O, []. cbn [retry_loop ret snd]. unfold after. cbn [repeat].
    rewrite !app_nil_r. destruct w. repeat split; auto.
  - assert (Hone : exists k ds,
               after w (Request self query variables) 1 [] =
               after w (Request self query variables) k ds /\
               (k <= S n)%nat /\ (S n = O \/ 1 <= k)%nat /\
               (List.length ds <= Nat.pred k)%nat /\
               Forall (fun secs => 0 <= secs <= max_retry_wait self) ds).
    { exists 1%nat, []. repeat split; auto; cbn; lia. }
    cbn [retry_loop]. unfold try_except_HTTPError.
    rewrite execute_query_reply.
    destruct (server (List.length (requests w)) (Request self query variables))
      as [result|e]; [exact Hone|].
    destruct e as [h| | | | | |]; try exact Hone.
    unfold bind at 1. unfold on_http_error.
    destruct (err_code h =? 429); cbn [negb]; [|exact Hone].
    unfold bind at 1. unfold lift.
    destruct (int_of (headers_get "Retry-After" (err_hdrs h))) as [d|x|];
      try exact Hone.
    destruct (attempt =? max_retries self) eqn:Hatt; [exact Hone|].
    apply Z.eqb_neq in Hatt.
    unfold sleep. fold (clamp self d).
    destruct (clamp self d <? 0) eqn:Hneg; [exact Hone|].
    apply Z.ltb_ge in Hneg.
    destruct (IH (attempt + 1)
                 (after w (Request self query variables) 1 [clamp self d]))
      as [k [ds [Hrun [Hk [Hpos [Hlen Hall]]]]]]; [lia|].
    exists (S k), (clamp self d :: ds).
    assert (Hw : mkWorld
                   (requests (after w (Request self query variables) 1 []))
                   (sleeps (after w (Request self query variables) 1 [])
                    ++ [clamp self d]) =
                 after w (Request self query variables) 1 [clamp self d])
      by (unfold after; cbn [requests sleeps]; rewrite app_nil_r;
          reflexivity).
    rewrite Hw, Hrun, after_cons.
    assert (n <> O) by lia.
    repeat split; auto; try lia.
    + cbn [List.length Nat.pred]. lia.
    + constructor; [|exact Hall]. pose proof (clamp_le self d). lia.
Qed.

(** X1: whatever the server replies, [execute_query_with_retries] issues
    at most [max_retries + 1] requests, all of them the same request; it
    sleeps only between two requests, so fewer times than it sends, and
    each sleep lasts between 0 and [max_retry_wait] seconds. *)
Theorem retries_are_bounded self query variables w :
  exists k ds,
    snd (execute_query_with_retries self query variables w) =
    after w (Request self query variables) k ds /\
    Z.of_nat k <= Z.max 0 (max_retries self + 1) /\
    (List.length ds <= Nat.pred k)%nat /\
    Forall (fun secs => 0 <= secs <= max_retry_wait self) ds.
Proof.
  unfold execute_query_with_retries.
  destruct (Z_lt_le_dec (max_retries self + 1) 0) as [Hneg|Hpos].
  - exists O, []. replace (Z.to_nat (max_retries self + 1)) with O by lia.
    cbn [retry_loop ret snd]. unfold after. cbn [repeat].
    rewrite !app_nil_r. destruct w. repeat split; auto. cbn. lia.
  - destruct (retry_loop_bounded self query variables
                (Z.to_nat (max_retries self + 1)) 0 w)
      as [k [ds [Hrun [Hk [_ [Hlen Hall]]]]]]; [lia|].
    exists k, ds. repeat split; auto. lia.
Qed.

(** X2: a rate limit whose [Retry-After] reads as an integer [d] with
    [min(d, max_retry_wait)] negative, met while retries are left, makes
    [execute_query_with_retries] raise the [ValueError] of
    [time.sleep]: nothing is slept for it and no request follows. *)
Theorem negative_wait_raises self query variables es ds e d w :
  Forall2 rate_limited es ds ->
  Forall (fun d => 0 <= clamp self d) ds ->
  Z.of_nat (List.length es) < max_retries self ->
  rate_limited e d ->
  clamp self d < 0 ->
  serves (List.length (requests w)) (map rate_limit es ++ [rate_limit e]) ->
  execute_query_with_retries self query variables w =
  (Raise ValueError,
   after w (Request self query variables) (S (List.length es))
         (map (clamp self) ds)).
Proof.
  intros Hes Hpos Hbudget He Hneg Hsrv.
  unfold execute_query_with_retries.
  destruct (rounds_of_budget self (List.length es)) as [n ->]; [lia|].
  rewrite (retry_loop_rate_limited self query variables es ds Hes Hpos);
    [ | eapply serves_app_l; exact Hsrv | lia ].
  rewrite (retry_loop_negative_wait self query variables n _ _ e d).
  - rewrite after_after, app_nil_r. f_equal. f_equal. lia.
  - eapply serves_after. exact Hsrv.
  - exact He.
  - exact Hneg.
  - lia.
Qed.

(** ** Further properties of get_documents *)

(** X4: a response that is not a JSON object (a list, a string, a
    number, [null]) makes [next] raise [AttributeError] after its one
    request. *)
Theorem not_an_object_raises client np variables pc w response :
  0 <= max_retries client ->
  truthy np = true ->
  server (List.length (requests w)) (Request client documents_query variables)
  = Body response ->
  (forall d, response <> JObj d) ->
  next client (Suspended np variables pc) w =
  (Raise AttributeError,
   after w (Request client documents_query variables) 1 []).
Proof.
  intros Hbudget Hnp Hsrv Hobj. unfold next. rewrite Hnp.
  unfold bind at 1.
  rewrite (execute_query_with_retries_body _ _ _ _ _ Hbudget Hsrv).
  destruct response; try reflexivity.
  exfalso. eapply Hobj. reflexivity.
Qed.

Lemma next_page_with client np variables pc w p has_next :
  0 <= max_retries client ->
  truthy np = true ->
  server (List.length (requests w)) (Request client documents_query variables)
  = Body (documents_response_with p has_next) ->
  next client (Suspended np variables pc) w =
  (Ok (Yield (items p),
       Suspended has_next (dict_set "after" (end_cursor p) variables)
                 (pc + 1)),
   after w (Request client documents_query variables) 1 []).
Proof.
  intros Hbudget Hnp Hsrv. unfold next. rewrite Hnp.
  unfold bind at 1.
  rewrite (execute_query_with_retries_body _ _ _ _ _ Hbudget Hsrv).
  unfold documents_response_with.
  cbn [bind get getitem3 getitem2 getitem iter lift
       py_get py_getitem py_iter lookup String.eqb Ascii.eqb Bool.eqb
       is_none negb].
  unfold bind. rewrite map_m_nodes. reflexivity.
Qed.

(** X5: the loop tests the truth value of [hasNextPage]: a page whose
    [hasNextPage] is [null], 0, an empty string, list or object, is the
    last one, like a page with [false]; its batch is yielded and no
    further request is sent. *)
Theorem falsy_has_next_page_stops client np variables pc w p has_next fuel :
  0 <= max_retries client ->
  truthy np = true ->
  truthy has_next = false ->
  server (List.length (requests w)) (Request client documents_query variables)
  = Body (documents_response_with p has_next) ->
  pages_of (S (S fuel)) client (Suspended np variables pc) w =
  (Ok [items p], after w (Request client documents_query variables) 1 []).
Proof.
  intros Hbudget Hnp Hlast Hsrv.
  rewrite pages_of_step, (next_page_with _ _ _ _ _ p has_next Hbudget Hnp Hsrv).
  rewrite pages_of_step, (next_after_last _ _ _ _ _ Hlast). reflexivity.
Qed.

(** X6: [pageInfo] is read before the batch is yielded: a response with
    edges and no [pageInfo] makes [next] raise [KeyError], and the nodes
    of that page are not yielded. *)
Theorem missing_page_info_raises client np variables pc w nodes :
  0 <= max_retries client ->
  truthy np = true ->
  server (List.length (requests w)) (Request client documents_query variables)
  = Body (documents_response_without_page_info nodes) ->
  next client (Suspended np variables pc) w =
  (Raise (KeyError "pageInfo"),
   after w (Request client documents_query variables) 1 []).
Proof.
  intros Hbudget Hnp Hsrv. unfold next. rewrite Hnp.
  unfold bind at 1.
  rewrite (execute_query_with_retries_body _ _ _ _ _ Hbudget Hsrv).
  reflexivity.
Qed.

Lemma lookup_dict_set_same k v d : lookup k (dict_set k v d) = Some v.
Proof.
  induction d as [|[k' v'] d IH]; cbn [dict_set lookup].
  - rewrite String.eqb_refl. reflexivity.
  - destruct (String.eqb k k') eqn:E; cbn [lookup].
    + rewrite String.eqb_refl. reflexivity.
    + rewrite E. exact IH.
Qed.

Lemma lookup_dict_set_other k k' v d :
  k' <> k -> lookup k' (dict_set k v d) = lookup k' d.
Proof.
  intros Hne. induction d as [|[k0 v0] d IH]; cbn [dict_set lookup].
  - apply String.eqb_neq in Hne. rewrite Hne. reflexivity.
  - destruct (String.eqb k k0) eqn:E; cbn [lookup].
    + apply String.eqb_eq in E. subst k0.
      apply String.eqb_neq in Hne. rewrite Hne. reflexivity.
    + rewrite IH. reflexivity.
Qed.

(** What the k-th request of a paginated query carries. *)
Lemma paged_requests_nth client query : forall cursors variables k r,
  nth_error (paged_requests client query variables cursors) k = Some r ->
  req_url r = url client /\
  req_headers r = _headers client /\
  req_query r = query /\
  (forall key, key <> "after" ->
               lookup key (req_variables r) = lookup key variables) /\
  lookup "after" (req_variables r) =
  match k with
  | O => lookup "after" variables
  | S j => nth_error cursors j
  end.
Proof.
  induction cursors as [|c cursors IH]; intros variables k r Hr.
  - destruct k; discriminate Hr.
  - destruct k as [|k]; cbn [paged_requests nth_error] in Hr.
    + injection Hr as <-. cbn. auto.
    + destruct (IH _ _ _ Hr) as [Hurl [Hh [Hq [Hother Hafter]]]].
      repeat split; auto.
      * intros key Hkey. rewrite Hother by exact Hkey.
        apply lookup_dict_set_other. exact Hkey.
      * rewrite Hafter. destruct k as [|j]; [|reflexivity].
        apply lookup_dict_set_same.
Qed.

(** X7: over well-formed pages, every request of [get_documents] sends
    the documents query with the insight and the page size; the first
    one has no [after] variable, and each later one has as [after] the
    [endCursor] of the page before it. *)
Theorem requests_carry_cursors client insight ps last fuel k r :
  0 <= max_retries client ->
  Forall (fun p => has_next_page p = true) ps ->
  has_next_page last = false ->
  serves 0 (map documents_reply (ps ++ [last])) ->
  (List.length ps + 2 <= fuel)%nat ->
  nth_error (requests (snd (pages_of fuel client
                                     (get_documents client insight) fresh)))
            k = Some r ->
  req_url r = url client /\
  req_headers r = _headers client /\
  req_query r = documents_query /\
  lookup "insight" (req_variables r) = Some insight /\
  lookup "first" (req_variables r) = Some (JInt (page_size client)) /\
  lookup "after" (req_variables r) =
  match k with
  | O => None
  | S j => option_map end_cursor (nth_error (ps ++ [last]) j)
  end.
Proof.
  intros Hbudget Hps Hlast Hsrv Hfuel Hr. unfold get_documents in Hr.
  rewrite (pages_of_pages client ps last Hbudget Hps Hlast) in Hr; auto.
  cbn [snd requests fresh app] in Hr.
  destruct (paged_requests_nth _ _ _ _ _ _ Hr)
    as [Hurl [Hh [Hq [Hother Hafter]]]].
  repeat split; auto.
  - rewrite Hother by discriminate. reflexivity.
  - rewrite Hother by discriminate. reflexivity.
  - rewrite Hafter. destruct k as [|j]; [reflexivity|].
    apply nth_error_map.
Qed.

(** The reply that comes after a run of rate limits within the budget. *)
Lemma execute_query_with_retries_after_limits self query variables es ds
      result w :
  Forall2 rate_limited es ds ->
  Forall (fun d => 0 <= clamp self d) ds ->
  Z.of_nat (List.length es) <= max_retries self ->
  serves (List.length (requests w)) (map rate_limit es ++ [Body result]) ->
  execute_query_with_retries self query variables w =
  (Ok result,
   after w (Request self query variables) (S (List.length es))
         (map (clamp self) ds)).
Proof.
  intros Hes Hpos Hbudget Hsrv. unfold execute_query_with_retries.
  destruct (rounds_of_budget self _ Hbudget) as [n ->].
  rewrite (retry_loop_rate_limited self query variables es ds Hes Hpos);
    [ | eapply serves_app_l; exact Hsrv | lia ].
  rewrite (retry_loop_body self query variables n _ _ result).
  - rewrite after_after, app_nil_r. f_equal. f_equal. lia.
  - eapply serves_after. exact Hsrv.
Qed.

Lemma next_after_limits client np variables pc w b :
  within_budget client b ->
  truthy np = true ->
  serves (List.length (requests w)) (burst_replies b) ->
  next client (Suspended np variables pc) w =
  (Ok (Yield (items (served b)),
       Suspended (JBool (has_next_page (served b)))
                 (dict_set "after" (end_cursor (served b)) variables)
                 (pc + 1)),
   after w (Request client documents_query variables)
         (S (List.length (limits b))) (map (clamp client) (waits b))).
Proof.
  intros [Hes [Hpos Hbudget]] Hnp Hsrv. unfold next. rewrite Hnp.
  unfold bind at 1.
  rewrite (execute_query_with_retries_after_limits
             client documents_query variables (limits b) (waits b)
             (documents_response (served b)) w Hes Hpos Hbudget Hsrv).
  unfold documents_response, page_info.
  cbn [bind get getitem3 getitem2 getitem iter lift
       py_get py_getitem py_iter lookup String.eqb Ascii.eqb Bool.eqb
       is_none negb].
  unfold bind. rewrite map_m_nodes. reflexivity.
Qed.

Lemma burst_replies_length b :
  List.length (burst_replies b) = S (List.length (limits b)).
Proof.
  unfold burst_replies. rewrite length_app, length_map. cbn. lia.
Qed.

Lemma pages_of_bursts client bs last :
  Forall (within_budget client) (bs ++ [last]) ->
  Forall (fun b => has_next_page (served b) = true) bs ->
  has_next_page (served last) = false ->
  forall fuel variables pc w,
    serves (List.length (requests w)) (flat_map burst_replies (bs ++ [last])) ->
    (List.length bs + 2 <= fuel)%nat ->
    pages_of fuel client (Suspended (JBool true) variables pc) w =
    (Ok (map (fun b => items (served b)) (bs ++ [last])),
     mkWorld (requests w
              ++ burst_requests client documents_query variables
                                (bs ++ [last]))
             (sleeps w ++ burst_sleeps client (bs ++ [last]))).
Proof.
  intros Hwf Hbs Hlast.
  induction Hbs as [|b bs Hb Hbs IH]; intros fuel variables pc w Hsrv Hfuel.
  - destruct fuel as [|[|fuel]]; cbn [List.length] in Hfuel; try lia.
    cbn [app flat_map map burst_requests burst_sleeps] in *.
    rewrite app_nil_r in *.
    inversion Hwf as [|? ? Hwfl _]; subst.
    rewrite pages_of_step.
    rewrite (next_after_limits client (JBool true) variables pc w last
                               Hwfl eq_refl Hsrv).
    rewrite pages_of_step.
    rewrite next_after_last by (rewrite Hlast; reflexivity).
    unfold after. rewrite ?app_nil_r. reflexivity.
  - destruct fuel as [|fuel]; cbn [List.length] in Hfuel; try lia.
    cbn [app flat_map map burst_requests burst_sleeps] in *.
    inversion Hwf as [|? ? Hwfb Hwfs]; subst.
    rewrite pages_of_step.
    rewrite (next_after_limits client (JBool true) variables pc w b
                               Hwfb eq_refl);
      [ | eapply serves_app_l; exact Hsrv ].
    rewrite Hb, IH.
    + unfold after. cbn [requests sleeps].
      rewrite <- !app_assoc. reflexivity.
    + exact Hwfs.
    + rewrite requests_after, <- burst_replies_length.
      eapply serves_app_r. exact Hsrv.
    + lia.
Qed.

(** X8: the retry budget is per request.  When every page comes after
    some rate limits, each run of them within [max_retries],
    [get_documents] still yields one batch per page; it sends the
    request of a page once for each of its rate limits and once more,
    and sleeps the clamped wait of every rate limit, in order. *)
Theorem pages_through_rate_limits client insight bs last fuel :
  Forall (within_budget client) (bs ++ [last]) ->
  Forall (fun b => has_next_page (served b) = true) bs ->
  has_next_page (served last) = false ->
  serves 0 (flat_map burst_replies (bs ++ [last])) ->
  (List.length bs + 2 <= fuel)%nat ->
  pages_of fuel client (get_documents client insight) fresh =
  (Ok (map (fun b => items (served b)) (bs ++ [last])),
   mkWorld (burst_requests client documents_query
              [("insight", insight); ("first", JInt (page_size client))]
              (bs ++ [last]))
           (burst_sleeps client (bs ++ [last]))).
Proof.
  intros Hwf Hbs Hlast Hsrv Hfuel. unfold get_documents.
  rewrite (pages_of_bursts client bs last Hwf Hbs Hlast); auto.
Qed.

(** ** Further properties of the CSV writer *)

Lemma for_each_app {S A} (xs ys : list A) (body : A -> M S unit) s :
  for_each (xs ++ ys) body s = (for_each xs body ;;; for_each ys body) s.
Proof.
  revert s. induction xs as [|x xs IH]; intros s.
  - reflexivity.
  - cbn [app for_each]. unfold bind in *.
    destruct (body x s) as [[[]|e|] s']; try reflexivity.
    apply IH.
Qed.

(** X9: writing two batches one after the other is writing their
    concatenation, for any documents, well formed or not: the files and
    the error, if one is raised, are the same. *)
Theorem write_docs_app docs1 docs2 focus_id f :
  write_docs (docs1 ++ docs2) focus_id f =
  (write_docs docs1 focus_id ;;; write_docs docs2 focus_id) f.
Proof. unfold write_docs. apply for_each_app. Qed.

Lemma appended_nil focus_id f : appended [] focus_id f = f.
Proof.
  unfold appended. cbn [map flat_map]. rewrite !app_nil_r.
  destruct f; reflexivity.
Qed.

Lemma appended_cons d ds focus_id f :
  appended (d :: ds) focus_id f =
  appended ds focus_id
    (mkFiles (docs_rows f ++ [documents_row d])
             (denorm_rows f
              ++ map (denormalised_row d)
                     (list_prod (focus_companies d focus_id) (d_topics d)))
             (comp_rows f
              ++ map (companies_row d) (focus_companies d focus_id))
             (tops_rows f ++ map (topics_row d) (d_topics d))).
Proof.
  unfold appended. cbn [map flat_map docs_rows denorm_rows comp_rows tops_rows].
  rewrite <- !app_assoc. reflexivity.
Qed.

Lemma write_docs_appended ds focus_id : forall f,
  write_docs (map document_json ds) focus_id f =
  (Ok tt, appended ds focus_id f).
Proof.
  induction ds as [|d ds IH]; intros f.
  - rewrite appended_nil. reflexivity.
  - cbn [map]. unfold write_docs in *.
    rewrite (for_each_cons (document_json d) _
               (fun doc => write_doc doc focus_id) f _
               (write_doc_rows d focus_id f)).
    rewrite IH, appended_cons. reflexivity.
Qed.

(** X10: a batch of well-formed documents is written in order, document
    by document: documents.csv gains one row per document, the other
    files the rows of each document in turn, and nothing is raised. *)
Theorem write_docs_batch ds focus_id f :
  write_docs (map document_json ds) focus_id f =
  (Ok tt, appended ds focus_id f) /\
  docs_rows (appended ds focus_id f) = (docs_rows f ++ map documents_row ds)%list /\
  List.length (map documents_row ds) = List.length ds.
Proof.
  split; [apply write_docs_appended|]. split; [reflexivity|apply length_map].
Qed.

Lemma focus_company_id d focus_id c :
  In c (focus_companies d focus_id) -> company_id c = JStr focus_id.
Proof.
  unfold focus_companies. intros H. apply filter_In in H.
  destruct H as [_ H]. destruct (company_id c); try discriminate H.
  cbn [py_eq_str] in H. apply String.eqb_eq in H. subst. reflexivity.
Qed.

(** X11: only relations with the focus company reach
    documents_companies.csv and documents_denormalised.csv: in every row
    written there the company id (second cell, resp. fifth cell) is the
    focus id, as a string. *)
Theorem only_focus_rows ds focus_id :
  let written := snd (write_docs (map document_json ds) focus_id no_files) in
  Forall (fun r => nth_error r 1 = Some (JStr focus_id)) (comp_rows written) /\
  Forall (fun r => nth_error r 4 = Some (JStr focus_id)) (denorm_rows written).
Proof.
  cbv zeta. rewrite write_docs_appended.
  cbn [snd appended no_files comp_rows denorm_rows app]. split.
  - apply Forall_flat_map, Forall_forall. intros d _.
    apply Forall_map, Forall_forall. intros c Hc.
    cbn [companies_row nth_error]. f_equal.
    eapply focus_company_id. exact Hc.
  - apply Forall_flat_map, Forall_forall. intros d _.
    apply Forall_map, Forall_forall. intros [c t] Hct.
    apply in_prod_iff in Hct. destruct Hct as [Hc _].
    cbn [denormalised_row core_fields app nth_error fst]. f_equal.
    eapply focus_company_id. exact Hc.
Qed.

Lemma extends_refl f : extends f f.
Proof. intros t. exists []. rewrite app_nil_r. reflexivity. Qed.

Lemma extends_trans f g h : extends f g -> extends g h -> extends f h.
Proof.
  intros Hfg Hgh t. destruct (Hfg t) as [m1 H1]. destruct (Hgh t) as [m2 H2].
  exists (m1 ++ m2)%list. rewrite H2, H1, app_assoc. reflexivity.
Qed.

Lemma appends_lift {A} (r : result A) : appends (lift r).
Proof. intros f. apply extends_refl. Qed.

Lemma appends_ret {A} (a : A) : appends (ret a).
Proof. intros f. apply extends_refl. Qed.

Lemma appends_bind {A B} (m : M files A) (k : A -> M files B) :
  appends m -> (forall a, appends (k a)) -> appends (bind m k).
Proof.
  intros Hm Hk f. unfold bind. specialize (Hm f).
  destruct (m f) as [[a|e|] f']; cbn [snd] in *; try exact Hm.
  eapply extends_trans; [exact Hm|]. apply Hk.
Qed.

Lemma appends_if {A} (b : bool) (m1 m2 : M files A) :
  appends m1 -> appends m2 -> appends (if b then m1 else m2).
Proof. destruct b; auto. Qed.

Lemma appends_writerow t r : appends (writerow t r).
Proof.
  intros f t'. unfold writerow. cbn [snd].
  destruct t, t'; cbn [rows_of set_rows docs_rows denorm_rows comp_rows
                       tops_rows];
    first [ exists [r]; reflexivity | exists []; rewrite app_nil_r; reflexivity ].
Qed.

Lemma appends_getitem obj k : appends (getitem obj k).
Proof. apply appends_lift. Qed.

Lemma appends_getitem2 obj k1 k2 : appends (getitem2 obj k1 k2).
Proof.
  unfold getitem2. apply appends_bind; [apply appends_getitem|].
  intros a. apply appends_getitem.
Qed.

Lemma appends_iter obj : appends (iter obj).
Proof. apply appends_lift. Qed.

Lemma appends_for_each {A} (xs : list A) (body : A -> M files unit) :
  (forall x, appends (body x)) -> appends (for_each xs body).
Proof.
  intros Hbody. induction xs as [|x xs IH]; cbn [for_each].
  - apply appends_ret.
  - apply appends_bind; [apply Hbody|]. intros _. exact IH.
Qed.

Create HintDb appends.
#[local] Hint Resolve appends_ret appends_getitem appends_getitem2
  appends_iter appends_writerow appends_bind appends_if appends_for_each
  : appends.

Lemma appends_write_denorm_row doc_base company topic :
  appends (write_denorm_row doc_base company topic).
Proof. unfold write_denorm_row. auto 20 with appends. Qed.

Lemma appends_write_denorm_rows doc doc_base focus_id company :
  appends (write_denorm_rows doc doc_base focus_id company).
Proof.
  unfold write_denorm_rows.
  pose proof appends_write_denorm_row. auto 20 with appends.
Qed.

Lemma appends_write_comp_row doc focus_id company :
  appends (write_comp_row doc focus_id company).
Proof. unfold write_comp_row. auto 20 with appends. Qed.

Lemma appends_write_tops_row doc topic : appends (write_tops_row doc topic).
Proof. unfold write_tops_row. auto 20 with appends. Qed.

Lemma appends_write_doc doc focus_id : appends (write_doc doc focus_id).
Proof.
  unfold write_doc.
  pose proof appends_write_denorm_rows.
  pose proof appends_write_comp_row.
  pose proof appends_write_tops_row.
  auto 40 with appends.
Qed.

(** X12: [write_docs] only appends.  Whatever the documents are, and
    also when it raises part way, each of the four files afterwards
    starts with the rows it had before. *)
Theorem write_docs_only_appends documents focus_id f :
  extends f (snd (write_docs documents focus_id f)).
Proof.
  unfold write_docs. apply appends_for_each.
  intros doc. apply appends_write_doc.
Qed.

(** X13: the row of documents.csv is built before anything is written
    for a document: when one of the ten keys it needs is missing,
    [write_docs] raises [KeyError] for that key and writes nothing, for
    this document or for those after it in the batch. *)
Theorem missing_field_writes_nothing d k rest focus_id f :
  In k scalar_keys ->
  write_docs (without_key k (document_json d) :: rest) focus_id f =
  (Raise (KeyError k), f).
Proof.
  unfold scalar_keys. cbn [In].
  intros [<-|[<-|[<-|[<-|[<-|[<-|[<-|[<-|[<-|[<-|[]]]]]]]]]]]; reflexivity.
Qed.

Lemma denorm_loop_without_topics doc doc_base focus_id cs f :
  py_getitem doc "topics" = Raise (KeyError "topics") ->
  for_each (map company_json cs) (write_denorm_rows doc doc_base focus_id) f =
  (if existsb (fun c => py_eq_str (company_id c) focus_id) cs
   then Raise (KeyError "topics") else Ok tt,
   f).
Proof.
  intros Hdoc. induction cs as [|c cs IH]; [reflexivity|].
  cbn [map for_each existsb]. unfold bind at 1. unfold write_denorm_rows at 1.
  cbn [bind getitem2 getitem lift company_json py_getitem lookup String.eqb
       Ascii.eqb Bool.eqb].
  destruct (py_eq_str (company_id c) focus_id); cbn [orb].
  - unfold bind, getitem, lift. rewrite Hdoc. reflexivity.
  - exact IH.
Qed.

Lemma comp_loop_without_focus doc focus_id cs f :
  existsb (fun c => py_eq_str (company_id c) focus_id) cs = false ->
  for_each (map company_json cs) (write_comp_row doc focus_id) f = (Ok tt, f).
Proof.
  induction cs as [|c cs IH]; [reflexivity|].
  cbn [map for_each existsb]. intros H. apply orb_false_iff in H.
  destruct H as [Hc Hcs].
  unfold bind at 1. unfold write_comp_row at 1.
  cbn [bind getitem2 getitem lift company_json py_getitem lookup String.eqb
       Ascii.eqb Bool.eqb].
  rewrite Hc. apply IH. exact Hcs.
Qed.

(** X14: a document that has its ten scalar fields and lacks
    [companies] or [topics] gets its row in documents.csv and then
    makes [write_docs] raise [KeyError] for the missing key: the other
    three files get no row for it. *)
Theorem missing_relations_after_documents_row d k focus_id f :
  k = "companies" \/ k = "topics" ->
  write_docs [without_key k (document_json d)] focus_id f =
  (Raise (KeyError k),
   mkFiles (docs_rows f ++ [documents_row d]) (denorm_rows f) (comp_rows f)
           (tops_rows f)).
Proof.
  intros [->| ->]; [reflexivity|].
  unfold write_docs. cbn [for_each]. unfold bind at 1. unfold write_doc.
  cbn [bind getitem lift document_json without_key filter negb fst
       py_getitem lookup String.eqb Ascii.eqb Bool.eqb iter py_iter writerow
       rows_of set_rows].
  unfold bind at 1.
  rewrite denorm_loop_without_topics by reflexivity.
  destruct (existsb (fun c => py_eq_str (company_id c) focus_id)
                    (d_companies d)) eqn:Hfocus; [reflexivity|].
  cbn [bind getitem lift py_getitem lookup String.eqb Ascii.eqb Bool.eqb
       iter py_iter].
  unfold bind at 1.
  rewrite comp_loop_without_focus by exact Hfocus.
  reflexivity.
Qed.

Lemma write_all_headers_files existing f :
  write_all_headers existing f =
  (Ok tt,
   mkFiles
     (if name_in "documents.csv" existing
      then docs_rows f else [map JStr docs_header])
     (if name_in "documents_denormalised.csv" existing
      then denorm_rows f else [map JStr denorm_header])
     (if name_in "documents_companies.csv" existing
      then comp_rows f else [map JStr comp_header])
     (if name_in "documents_topics.csv" existing
      then tops_rows f else [map JStr tops_header])).
Proof.
  unfold write_all_headers, file_headers.
  cbn [for_each bind fst snd file_name].
  destruct (name_in "documents.csv" existing),
           (name_in "documents_denormalised.csv" existing),
           (name_in "documents_companies.csv" existing),
           (name_in "documents_topics.csv" existing);
    destruct f; reflexivity.
Qed.

(** X15: [write_all_headers] leaves a file whose name is in [existing]
    as it is, and makes every other one of the four files hold its
    header row and nothing else, whatever it held before.  So with an
    empty [existing] all four are reset, and with all four names
    nothing changes. *)
Theorem write_all_headers_rows existing f t :
  fst (write_all_headers existing f) = Ok tt /\
  rows_of t (snd (write_all_headers existing f)) =
  if name_in (file_name t) existing then rows_of t f
  else [map JStr (header_of t)].
Proof.
  rewrite write_all_headers_files. split; [reflexivity|].
  destruct t; reflexivity.
Qed.

(** X16: writing the headers twice is writing them once. *)
Theorem write_all_headers_twice existing f :
  (write_all_headers existing ;;; write_all_headers existing) f =
  write_all_headers existing f.
Proof.
  unfold bind. rewrite !write_all_headers_files.
  cbn [docs_rows denorm_rows comp_rows tops_rows].
  destruct (name_in "documents.csv" existing),
           (name_in "documents_denormalised.csv" existing),
           (name_in "documents_companies.csv" existing),
           (name_in "documents_topics.csv" existing);
    reflexivity.
Qed.

(** X17: after the headers and a batch of well-formed documents,
    documents.csv, documents_companies.csv and documents_topics.csv
    have rows as wide as their header; the header of
    documents_denormalised.csv has one name more ([data_source]) than
    its rows have cells. *)
Theorem header_and_row_widths ds focus_id f :
  let written :=
    snd ((write_all_headers [] ;;;
          write_docs (map document_json ds) focus_id) f) in
  (exists rows, docs_rows written = map JStr docs_header :: rows /\
     Forall (fun r => List.length r = List.length docs_header) rows) /\
  (exists rows, comp_rows written = map JStr comp_header :: rows /\
     Forall (fun r => List.length r = List.length comp_header) rows) /\
  (exists rows, tops_rows written = map JStr tops_header :: rows /\
     Forall (fun r => List.length r = List.length tops_header) rows) /\
  (exists rows, denorm_rows written = map JStr denorm_header :: rows /\
     Forall (fun r => S (List.length r) = List.length denorm_header) rows).
Proof.
  cbv zeta. unfold bind. rewrite write_all_headers_files.
  cbn [name_in existsb]. rewrite write_docs_appended.
  cbn [snd appended docs_rows denorm_rows comp_rows tops_rows app].
  split; [|split; [|split]]; eexists; (split; [reflexivity|]).
  - apply Forall_map, Forall_forall. intros d _. reflexivity.
  - apply Forall_flat_map, Forall_forall. intros d _.
    apply Forall_map, Forall_forall. intros c _. reflexivity.
  - apply Forall_flat_map, Forall_forall. intros d _.
    apply Forall_map, Forall_forall. intros t _. reflexivity.
  - apply Forall_flat_map, Forall_forall. intros d _.
    apply Forall_map, Forall_forall. intros ct _. reflexivity.
Qed.

(** ** Further properties of the lookups *)

Lemma add_taxonomy_node {S} name acc c (s : S) :
  add_taxonomy name acc (company_node c) s =
  (Ok (mkMatchSet
         (best acc ++ if exact_match name c then [name_id c] else [])
         (all acc ++ [name_id c])),
   s).
Proof.
  unfold add_taxonomy, exact_match.
  cbn [bind getitem lift company_node py_getitem lookup
       String.eqb Ascii.eqb Bool.eqb lower ret best all].
  destruct (String.eqb (str_lower (fst c)) (str_lower name)).
  - reflexivity.
  - rewrite app_nil_r. reflexivity.
Qed.

Lemma add_taxonomy_all {S} name ts : forall acc (s : S),
  fold_m (add_taxonomy name) (map company_node ts) acc s =
  (Ok (mkMatchSet (best acc ++ map name_id (filter (exact_match name) ts))
                  (all acc ++ map name_id ts)),
   s).
Proof.
  induction ts as [|c ts IH]; intros acc s.
  - cbn [map fold_m filter]. rewrite !app_nil_r. destruct acc; reflexivity.
  - cbn [map fold_m]. unfold bind. rewrite add_taxonomy_node, IH.
    cbn [best all filter].
    destruct (exact_match name c); cbn [map]; rewrite <- !app_assoc;
      reflexivity.
Qed.

(** X18: [search_taxonomy] sends one request, with no variables, and
    returns in [all] the (name, id) of every taxonomy of the reply, in
    order, and in [best] those whose name equals the search term once
    both are lowered. *)
Theorem search_taxonomy_partitions client name ts w :
  server (List.length (requests w)) (Request client taxonomies_query [])
  = Body (taxonomies_response ts) ->
  search_taxonomy client name w =
  (Ok (mkMatchSet (map name_id (filter (exact_match name) ts))
                  (map name_id ts)),
   after w (Request client taxonomies_query []) 1 []).
Proof.
  intros Hsrv. unfold search_taxonomy. unfold bind at 1.
  rewrite execute_query_reply, Hsrv. unfold taxonomies_response.
  cbn [bind getitem3 getitem2 getitem iter lift
       py_getitem py_iter lookup String.eqb Ascii.eqb Bool.eqb].
  rewrite add_taxonomy_all. reflexivity.
Qed.

(** X19: [search_taxonomy] calls [execute_query], not the retrying
    wrapper: any failure of its one request, a 429 included, comes out
    as it is, with no sleep and no second request. *)
Theorem search_taxonomy_does_not_retry client name e w :
  server (List.length (requests w)) (Request client taxonomies_query [])
  = Fails e ->
  search_taxonomy client name w =
  (Raise e, after w (Request client taxonomies_query []) 1 []).
Proof.
  intros Hsrv. unfold search_taxonomy. unfold bind at 1.
  rewrite execute_query_reply, Hsrv. reflexivity.
Qed.

Lemma bind_ok {S A B} (m : M S A) (k : A -> M S B) s b s' :
  bind m k s = (Ok b, s') ->
  exists a s1, m s = (Ok a, s1) /\ k a s1 = (Ok b, s').
Proof.
  unfold bind. destruct (m s) as [[a|e|] s1]; intros H; try discriminate H.
  exists a, s1. auto.
Qed.

Lemma sound_matches_all name ms p :
  sound_matches name ms ->
  sound_matches name (mkMatchSet (best ms) (all ms ++ [p])).
Proof.
  intros H q Hq. cbn [best all] in *. destruct (H q Hq) as [Hin Hs].
  split; [|exact Hs]. apply in_or_app. auto.
Qed.

Lemma add_company_sound {S} name acc company (s s' : S) acc' :
  add_company name acc company s = (Ok acc', s') ->
  sound_matches name acc -> sound_matches name acc'.
Proof.
  unfold add_company. intros H Hacc.
  apply bind_ok in H. destruct H as [n [s1 [Hn H]]].
  apply bind_ok in H. destruct H as [i [s2 [Hi H]]].
  apply bind_ok in H. destruct H as [n' [s3 [Hn' H]]].
  apply bind_ok in H. destruct H as [l [s4 [Hl H]]].
  destruct n' as [| | | |str| |]; try discriminate Hl.
  cbn [lower ret] in Hl. injection Hl as <- <-.
  destruct (String.eqb (str_lower str) (str_lower name)) eqn:Hmatch.
  - apply bind_ok in H. destruct H as [n2 [s5 [Hn2 H]]].
    apply bind_ok in H. destruct H as [i2 [s6 [Hi2 H]]].
    cbn [ret best all] in H. injection H as <- <-.
    assert (Hsame : n2 = JStr str /\ n = JStr str /\ i2 = i).
    { unfold getitem2, bind, getitem, lift in Hn, Hi, Hn', Hn2, Hi2.
      destruct (py_getitem company "node") as [node|e|];
        try discriminate Hn.
      destruct (py_getitem node "name") as [v|e|]; try discriminate Hn.
      destruct (py_getitem node "id") as [v'|e|]; try discriminate Hi.
      injection Hn as <- <-. injection Hi as <- <-.
      injection Hn' as <- <-. injection Hn2 as <- <-.
      injection Hi2 as <- <-. auto. }
    destruct Hsame as [-> [-> ->]].
    intros q Hq. cbn [best all] in *.
    apply in_app_or in Hq. destruct Hq as [Hq|[<-|[]]].
    + destruct (Hacc q Hq) as [Hin Hs]. split; [|exact Hs].
      apply in_or_app. auto.
    + split; [apply in_or_app; right; left; reflexivity|].
      exists str. split; [reflexivity|]. apply String.eqb_eq. exact Hmatch.
  - cbn [ret] in H. injection H as <- <-.
    apply sound_matches_all. exact Hacc.
Qed.

Lemma fold_add_company_sound {S} name es : forall acc (s s' : S) acc',
  fold_m (add_company name) es acc s = (Ok acc', s') ->
  sound_matches name acc -> sound_matches name acc'.
Proof.
  induction es as [|e es IH]; intros acc s s' acc' H Hacc.
  - cbn [fold_m ret] in H. injection H as <- <-. exact Hacc.
  - cbn [fold_m] in H. apply bind_ok in H.
    destruct H as [acc1 [s1 [H1 H]]].
    eapply IH; [exact H|]. eapply add_company_sound; eauto.
Qed.

Lemma search_companies_loop_sound client name :
  forall fuel v np acc w result w',
    search_companies_loop fuel client name v np acc w = (Ok result, w') ->
    sound_matches name acc -> sound_matches name result.
Proof.
  induction fuel as [|fuel IH]; intros v np acc w result w' H Hacc.
  - cbn [search_companies_loop] in H.
    destruct (truthy np); [discriminate H|].
    cbn [ret] in H. injection H as <- <-. exact Hacc.
  - cbn [search_companies_loop] in H.
    destruct (truthy np).
    + apply bind_ok in H. destruct H as [response [w1 [_ H]]].
      apply bind_ok in H. destruct H as [edges [w2 [_ H]]].
      apply bind_ok in H. destruct H as [es [w3 [_ H]]].
      apply bind_ok in H. destruct H as [acc1 [w4 [Hfold H]]].
      apply bind_ok in H. destruct H as [cursor [w5 [_ H]]].
      apply bind_ok in H. destruct H as [np' [w6 [_ H]]].
      eapply IH; [exact H|].
      eapply fold_add_company_sound; eauto.
    + cbn [ret] in H. injection H as <- <-. exact Hacc.
Qed.

(** X20: whatever the server sends, a result that [search_companies]
    returns is sound: every pair of [best] is also in [all], and its
    name is a string equal to the search term once both are lowered. *)
Theorem search_companies_best_sound fuel client name w result w' :
  search_companies fuel client name w = (Ok result, w') ->
  sound_matches name result.
Proof.
  intros H. unfold search_companies in H.
  eapply search_companies_loop_sound; [exact H|].
  intros p [].
Qed.

(** ** Properties of main *)

Lemma existing_files_nil file_exists :
  existsb file_exists csv_types = false ->
  existing_files file_exists = [].
Proof.
  unfold existing_files, csv_types. cbn [existsb filter].
  destruct (file_exists documents_csv),
           (file_exists documents_denormalised_csv),
           (file_exists documents_companies_csv),
           (file_exists documents_topics_csv);
    cbn; intros H; try discriminate H; reflexivity.
Qed.

Lemma existing_files_cons file_exists t :
  file_exists t = true ->
  (List.length (existing_files file_exists) =? 0)%nat = false.
Proof.
  intros Ht. unfold existing_files. rewrite length_map.
  assert (Hin : In t (filter file_exists csv_types)).
  { apply filter_In. split; [|exact Ht].
    unfold csv_types. destruct t; cbn; auto. }
  destruct (filter file_exists csv_types); [destruct Hin|reflexivity].
Qed.

(** X21: without [--overwrite] and without [--append], when one of the
    four files exists, [main] raises an exception that names the
    existing files, before any request is sent and before any file is
    touched. *)
Theorem main_refuses_existing_files args env_token file_exists fuel s t :
  args_overwrite args = false ->
  args_append args = false ->
  file_exists t = true ->
  main args env_token file_exists fuel s =
  (Uncaught (Exception (files_exist_message (existing_files file_exists))),
   s).
Proof.
  intros Hover Happ Ht. unfold main, preflight.
  rewrite Hover, Happ, (existing_files_cons _ _ Ht). reflexivity.
Qed.

(** X22: with [--overwrite] and [--append] together, [existing_files]
    is read without having been assigned: [main] ends with
    [UnboundLocalError], before any request is sent and before any file
    is touched. *)
Theorem main_overwrite_and_append args env_token file_exists fuel s :
  args_overwrite args = true ->
  args_append args = true ->
  main args env_token file_exists fuel s =
  (UnboundLocalError "existing_files", s).
Proof.
  intros Hover Happ. unfold main, preflight.
  rewrite Hover, Happ. reflexivity.
Qed.

Lemma main_proceeds args env_token file_exists fuel s :
  proceeds args file_exists = true ->
  main args env_token file_exists fuel s =
  match (with_files
           (write_all_headers
              (if args_append args then existing_files file_exists else []))
         ;;; write_pages fuel (default_client env_token) (args_focus_id args)
                         (get_documents (default_client env_token)
                                        (insight_of args)) 0) s
  with
  | (Ok total, s') => (Finished_with total, s')
  | (Raise e, s') => (Uncaught e, s')
  | (OutOfFuel, s') => (Unfinished, s')
  end.
Proof.
  unfold proceeds, main, preflight.
  destruct (args_overwrite args), (args_append args); cbn [negb orb andb];
    intros H; try discriminate H; try reflexivity.
  rewrite (existing_files_nil file_exists).
  - reflexivity.
  - destruct (existsb file_exists csv_types); [discriminate H|reflexivity].
Qed.

Lemma appended_app ds1 ds2 focus_id f :
  appended (ds1 ++ ds2) focus_id f =
  appended ds2 focus_id (appended ds1 focus_id f).
Proof.
  unfold appended. cbn [docs_rows denorm_rows comp_rows tops_rows].
  rewrite !flat_map_app, map_app, <- !app_assoc. reflexivity.
Qed.

Lemma paged_requests_app client query cursors : forall variables cursor,
  paged_requests client query variables (cursors ++ [cursor]) =
  (paged_requests client query variables cursors
   ++ [Request client query (variables_after variables cursors)])%list.
Proof.
  induction cursors as [|c cursors IH]; intros variables cursor;
    cbn [app paged_requests variables_after fold_left]; [reflexivity|].
  rewrite IH. reflexivity.
Qed.

(** One round of the loop of [main] on a page of well-formed documents. *)
Lemma write_pages_round fuel client focus_id np variables pc total w f p :
  0 <= max_retries client ->
  truthy np = true ->
  server (List.length (requests w)) (Request client documents_query variables)
  = documents_page_reply p ->
  write_pages (S fuel) client focus_id (Suspended np variables pc) total (w, f)
  = write_pages fuel client focus_id
      (Suspended (JBool (listed_has_next p))
                 (dict_set "after" (listed_cursor p) variables) (pc + 1))
      (total + Z.of_nat (List.length (listed p)))
      (after w (Request client documents_query variables) 1 [],
       appended (listed p) focus_id f).
Proof.
  intros Hbudget Hnp Hsrv. cbn [write_pages].
  unfold bind at 1. unfold with_world at 1. cbn [fst snd].
  rewrite (next_page_yields client np variables pc w (page_of p) Hbudget Hnp
                            Hsrv).
  cbn [fst snd page_of items end_cursor has_next_page].
  unfold bind at 1. unfold with_files at 1. cbn [fst snd].
  rewrite write_docs_appended, length_map. reflexivity.
Qed.

(** The loop of [main] through pages that all announce a next page. *)
Lemma write_pages_prefix client focus_id ps :
  0 <= max_retries client ->
  Forall (fun p => listed_has_next p = true) ps ->
  forall fuel variables pc total w f,
    serves (List.length (requests w)) (map documents_page_reply ps) ->
    write_pages (List.length ps + fuel) client focus_id
                (Suspended (JBool true) variables pc) total (w, f) =
    write_pages fuel client focus_id
      (Suspended (JBool true)
                 (variables_after variables (map listed_cursor ps))
                 (pc + Z.of_nat (List.length ps)))
      (total + Z.of_nat (List.length (flat_map listed ps)))
      (mkWorld (requests w
                ++ paged_requests client documents_query variables
                                  (map listed_cursor ps))
               (sleeps w),
       appended (flat_map listed ps) focus_id f).
Proof.
  intros Hbudget Hps.
  induction Hps as [|p ps Hp Hps IH]; intros fuel variables pc total w f Hsrv.
  - cbn [List.length Nat.add map flat_map paged_requests variables_after
         fold_left Z.of_nat].
    rewrite !Z.add_0_r, !app_nil_r, appended_nil. destruct w; reflexivity.
  - cbn [List.length Nat.add map flat_map paged_requests variables_after
         fold_left].
    rewrite (write_pages_round _ client focus_id (JBool true) variables pc
                               total w f p Hbudget eq_refl);
      [ | eapply serves_head; exact Hsrv ].
    rewrite Hp, IH.
    + unfold after, variables_after. cbn [requests sleeps repeat].
      rewrite app_nil_r, <- app_assoc, appended_app, length_app.
      cbn [app].
      replace (pc + 1 + Z.of_nat (List.length ps))
        with (pc + Z.of_nat (S (List.length ps))) by lia.
      replace (total + Z.of_nat (List.length (listed p))
               + Z.of_nat (List.length (flat_map listed ps)))
        with (total + Z.of_nat (List.length (listed p)
                                + List.length (flat_map listed ps))) by lia.
      reflexivity.
    + rewrite requests_after.
      replace (List.length (requests w) + 1)%nat
        with (S (List.length (requests w))) by lia.
      eapply serves_tail. exact Hsrv.
Qed.

Lemma write_pages_stop fuel client focus_id np variables pc total s :
  truthy np = false ->
  write_pages (S fuel) client focus_id (Suspended np variables pc) total s =
  (Ok total, s).
Proof.
  intros Hnp. cbn [write_pages]. unfold bind, with_world.
  rewrite (next_after_last _ _ _ _ _ Hnp). destruct s. reflexivity.
Qed.

Lemma with_files_headers existing w f :
  with_files (write_all_headers existing) (w, f) =
  (Ok tt, (w, snd (write_all_headers existing f))).
Proof.
  unfold with_files. cbn [fst snd]. rewrite write_all_headers_files.
  reflexivity.
Qed.

(** X23: when the flags and the files let it go on, and the API sends
    the pages [ps ++ [last]] of well-formed documents, [main] writes the
    headers, then the rows of every document of every page in order, one
    request per page, and ends with the number of documents as total. *)
Theorem main_downloads_all_pages args env_token file_exists ps last fuel f :
  proceeds args file_exists = true ->
  Forall (fun p => listed_has_next p = true) ps ->
  listed_has_next last = false ->
  serves 0 (map documents_page_reply (ps ++ [last])) ->
  (List.length ps + 2 <= fuel)%nat ->
  main args env_token file_exists fuel (fresh, f) =
  (Finished_with (Z.of_nat (List.length (flat_map listed (ps ++ [last])))),
   (mkWorld
      (paged_requests (default_client env_token) documents_query
         [("insight", insight_of args); ("first", JInt 100)]
         (map listed_cursor (ps ++ [last])))
      [],
    appended (flat_map listed (ps ++ [last])) (args_focus_id args)
             (headers_written args file_exists f))).
Proof.
  intros Hgo Hps Hlast Hsrv Hfuel.
  rewrite (main_proceeds _ _ _ _ _ Hgo).
  unfold bind at 1. rewrite with_files_headers.
  fold (headers_written args file_exists f).
  unfold get_documents. cbn [page_size default_client].
  replace fuel with (List.length ps + S (S (fuel - List.length ps - 2)))%nat
    by lia.
  rewrite map_app in Hsrv.
  rewrite (write_pages_prefix (default_client env_token) (args_focus_id args)
                              ps);
    [ | cbn; lia | exact Hps | eapply serves_app_l; exact Hsrv ].
  rewrite (write_pages_round _ (default_client env_token)
                             (args_focus_id args) (JBool true) _ _ _ _ _ last);
    [ | cbn; lia | reflexivity
      | cbn [requests fresh app];
        rewrite paged_requests_length, length_map;
        apply serves_app_r in Hsrv; rewrite length_map in Hsrv;
        eapply serves_head; exact Hsrv ].
  rewrite Hlast, write_pages_stop by reflexivity.
  unfold after. cbn [requests sleeps fresh app repeat].
  rewrite map_app. cbn [map].
  rewrite paged_requests_app, flat_map_app, appended_app, length_app.
  cbn [flat_map]. rewrite !app_nil_r.
  replace (0 + Z.of_nat (List.length (flat_map listed ps))
           + Z.of_nat (List.length (listed last)))
    with (Z.of_nat (List.length (flat_map listed ps)
                    + List.length (listed last))) by lia.
  reflexivity.
Qed.

Lemma execute_query_with_retries_fails self query variables w e :
  0 <= max_retries self ->
  server (List.length (requests w)) (Request self query variables) = Fails e ->
  (forall h, e = HTTPError h -> err_code h <> 429) ->
  execute_query_with_retries self query variables w =
  (Raise e, after w (Request self query variables) 1 []).
Proof.
  intros Hbudget H Hother. unfold execute_query_with_retries.
  destruct (rounds_of_budget self 0) as [n ->]; [lia|].
  cbn [Nat.add]. apply retry_loop_fails; assumption.
Qed.

(** X24: when the request for a page fails with an error that is not a
    rate limit, [main] ends with that error, and the files keep the
    headers and the rows of the pages before it. *)
Theorem main_keeps_rows_of_earlier_pages args env_token file_exists ps e fuel f :
  proceeds args file_exists = true ->
  Forall (fun p => listed_has_next p = true) ps ->
  (forall h, e = HTTPError h -> err_code h <> 429) ->
  serves 0 (map documents_page_reply ps ++ [Fails e]) ->
  (List.length ps + 1 <= fuel)%nat ->
  main args env_token file_exists fuel (fresh, f) =
  (Uncaught e,
   (mkWorld
      (paged_requests (default_client env_token) documents_query
         [("insight", insight_of args); ("first", JInt 100)]
         (map listed_cursor ps)
       ++ [Request (default_client env_token) documents_query
             (variables_after
                [("insight", insight_of args); ("first", JInt 100)]
                (map listed_cursor ps))])
      [],
    appended (flat_map listed ps) (args_focus_id args)
             (headers_written args file_exists f))).
Proof.
  intros Hgo Hps Hother Hsrv Hfuel.
  rewrite (main_proceeds _ _ _ _ _ Hgo).
  unfold bind at 1. rewrite with_files_headers.
  fold (headers_written args file_exists f).
  unfold get_documents. cbn [page_size default_client].
  replace fuel with (List.length ps + S (fuel - List.length ps - 1))%nat
    by lia.
  rewrite (write_pages_prefix (default_client env_token) (args_focus_id args)
                              ps);
    [ | cbn; lia | exact Hps | eapply serves_app_l; exact Hsrv ].
  cbn [write_pages]. unfold bind at 1. unfold with_world at 1.
  cbn [fst snd]. unfold next. cbn [truthy]. unfold bind at 1.
  rewrite (execute_query_with_retries_fails _ _ _ _ e);
    [ | cbn; lia
      | cbn [requests fresh app];
        rewrite paged_requests_length, length_map;
        apply serves_app_r in Hsrv; rewrite length_map in Hsrv;
        eapply serves_head; exact Hsrv
      | exact Hother ].
  unfold after. cbn [requests sleeps fresh app repeat].
  reflexivity.
Qed.

(** X25: with a negative [max_retries] the client sends nothing and
    hands back [None], so the first [next] on [get_documents] raises
    [AttributeError] without any request. *)
Theorem negative_budget_raises client np variables pc w :
  max_retries client < 0 ->
  truthy np = true ->
  next client (Suspended np variables pc) w = (Raise AttributeError, w).
Proof.
  intros Hneg Hnp. unfold next. rewrite Hnp. unfold bind at 1.
  rewrite no_attempt by exact Hneg. reflexivity.
Qed.
End Program.

(** ** The model on examples *)

Lemma scripted_serves script default : serves (scripted script default) 0 script.
Proof.
  intros i r req H. unfold scripted. cbn [Nat.add].
  apply nth_error_nth. exact H.
Qed.

(** Two rate limits, the second asking for more than [max_retry_wait],
    then a reply: three requests, two sleeps, of 5 and of 30 seconds. *)
Lemma retries_until_success_witness :
  execute_query_with_retries busy_then_ok decimal_int ascii_lower
                             sample_client "query" [] fresh =
  (Ok (JObj [("data", JNull)]),
   mkWorld (repeat (Request sample_client "query" []) 3) [5; 30]).
Proof.
  apply (retries_until_success busy_then_ok decimal_int ascii_lower
           sample_client "query" []
           [too_many_requests [("Retry-After", "5")];
            too_many_requests [("retry-after", "120")]]
           [5; 120] (JObj [("data", JNull)]) fresh).
  - repeat constructor.
  - repeat constructor; vm_compute; discriminate.
  - vm_compute. discriminate.
  - apply scripted_serves.
Defined.

(** A client that retries once meets two rate limits: two requests, one
    sleep, and the error that carries the second response. *)
Lemma retries_exhausted_witness :
  execute_query_with_retries always_busy decimal_int ascii_lower
                             impatient_client "query" [] fresh =
  (Raise (HTTPError
            (mkHTTPError "https://api.polecat.com/graphql" 429
                         "Maximum number of retries exceeded"
                         [("Retry-After", "7")] "slow down")),
   mkWorld (repeat (Request impatient_client "query" []) 2) [5]).
Proof.
  apply (retries_exhausted always_busy decimal_int ascii_lower
           impatient_client "query" []
           [too_many_requests [("Retry-After", "5")]] [5]
           (too_many_requests [("Retry-After", "7")]) 7 fresh).
  - repeat constructor.
  - repeat constructor; vm_compute; discriminate.
  - repeat constructor.
  - reflexivity.
  - apply scripted_serves.
Defined.

(** A server error after one rate limit: it comes out as it is, after two
    requests and the one sleep of the rate limit. *)
Lemma other_errors_propagate_witness :
  execute_query_with_retries busy_then_broken decimal_int ascii_lower
                             sample_client "query" [] fresh =
  (Raise (HTTPError server_error),
   mkWorld (repeat (Request sample_client "query" []) 2) [5]).
Proof.
  apply (other_errors_propagate busy_then_broken decimal_int ascii_lower
           sample_client "query" []
           [too_many_requests [("Retry-After", "5")]] [5]
           (HTTPError server_error) fresh).
  - repeat constructor.
  - repeat constructor; vm_compute; discriminate.
  - vm_compute. discriminate.
  - intros h H. injection H as <-. cbn. lia.
  - apply scripted_serves.
Defined.

(** On its last attempt a client is sent a 429 without [Retry-After]:
    a [TypeError] or [ValueError] comes out, not the max-retries error. *)
Lemma bad_retry_after_raises_witness :
  exists x,
    (x = TypeError \/ x = ValueError) /\
    execute_query_with_retries busy_without_header decimal_int ascii_lower
                               impatient_client "query" [] fresh =
    (Raise x, mkWorld (repeat (Request impatient_client "query" []) 2) [5]).
Proof.
  apply (bad_retry_after_raises busy_without_header decimal_int ascii_lower
           impatient_client "query" []
           [too_many_requests [("Retry-After", "5")]] [5]
           (too_many_requests [("Content-Length", "0")]) fresh).
  - repeat constructor.
  - repeat constructor; vm_compute; discriminate.
  - vm_compute. discriminate.
  - reflexivity.
  - left. reflexivity.
  - apply scripted_serves.
Defined.

Example missing_header_is_TypeError :
  execute_query_with_retries busy_without_header decimal_int ascii_lower
                             impatient_client "query" [] fresh =
  (Raise TypeError, mkWorld (repeat (Request impatient_client "query" []) 2) [5]).
Proof. reflexivity. Qed.

Example date_header_is_ValueError :
  execute_query_with_retries busy_until_date decimal_int ascii_lower
                             sample_client "query" [] fresh =
  (Raise ValueError, mkWorld [Request sample_client "query" []] []).
Proof. reflexivity. Qed.

(** A negative wait is handed to [time.sleep], which raises. *)
Example negative_wait_is_ValueError :
  execute_query_with_retries busy_negative decimal_int ascii_lower
                             sample_client "query" [] fresh =
  (Raise ValueError, mkWorld [Request sample_client "query" []] []).
Proof. reflexivity. Qed.

Example no_attempt_example :
  execute_query_with_retries busy_then_ok decimal_int ascii_lower
                             idle_client "query" [] fresh =
  (Ok JNull, fresh).
Proof. apply no_attempt. reflexivity. Qed.

(** An empty page with a next page, then the last page: two batches, the
    first one empty, and two requests, the second with the cursor. *)
Lemma one_batch_per_page_witness :
  pages_of two_pages decimal_int ascii_lower dumps 3 sample_client
           (get_documents sample_client sample_insight) fresh =
  (Ok [[]; [document_json sample_document]],
   mkWorld
     [Request sample_client documents_query
              [("insight", sample_insight); ("first", JInt 100)];
      Request sample_client documents_query
              [("insight", sample_insight); ("first", JInt 100);
               ("after", JStr "cursor-1")]]
     []).
Proof.
  apply (one_batch_per_page two_pages decimal_int ascii_lower dumps
           sample_client sample_insight [empty_page] last_page 3).
  - vm_compute. discriminate.
  - repeat constructor.
  - reflexivity.
  - apply scripted_serves.
  - cbn. lia.
Defined.

(** A response with [data] null and no [errors]: the iteration ends. *)
Lemma no_data_stops_witness :
  next no_data decimal_int ascii_lower dumps sample_client
       (get_documents sample_client sample_insight) fresh =
  (Ok (StopIteration, Finished),
   mkWorld [Request sample_client documents_query
                    [("insight", sample_insight); ("first", JInt 100)]]
           []).
Proof.
  apply (no_data_stops no_data decimal_int ascii_lower dumps sample_client
           (JBool true) [("insight", sample_insight); ("first", JInt 100)]
           1 fresh (JObj [("data", JNull)])).
  - vm_compute. discriminate.
  - reflexivity.
  - reflexivity.
  - reflexivity.
  - reflexivity.
Defined.

(** Two pages of companies for the term [acme]: three nodes in [all],
    the one named ACME in [best]. *)
Lemma search_companies_partitions_witness :
  search_companies two_company_pages decimal_int ascii_lower 2 sample_client
                   "acme" fresh =
  (Ok (mkMatchSet [(JStr "ACME", JStr "C1")]
                  [(JStr "Acme Holdings", JStr "C7"); (JStr "ACME", JStr "C1");
                   (JStr "Acme Rockets", JStr "C9")]),
   mkWorld
     [Request sample_client companies_query
              [("first", JInt 100); ("search", JStr "acme")];
      Request sample_client companies_query
              [("first", JInt 100); ("search", JStr "acme");
               ("after", JStr "cursor-1")]]
     []).
Proof.
  apply (search_companies_partitions two_company_pages decimal_int ascii_lower
           sample_client "acme" [first_companies] last_companies 2).
  - vm_compute. discriminate.
  - repeat constructor.
  - reflexivity.
  - apply scripted_serves.
  - cbn. lia.
Defined.

(** A response with [errors] makes [get_documents] raise, with every
    message and the serialised errors in the text of the exception. *)
Example get_documents_reports_errors :
  next (scripted [Body documents_with_errors] unreachable)
       decimal_int ascii_lower dumps sample_client
       (get_documents sample_client sample_insight) fresh =
  (Raise (Exception
            (graphql_err_message dumps ["Unknown focus"; "Unknown taxonomy"]
                                 sample_errors)),
   mkWorld [Request sample_client documents_query
                    [("insight", sample_insight); ("first", JInt 100)]]
           []).
Proof. reflexivity. Qed.

(** C5: [search_companies] and [search_taxonomy] never look at
    [errors].  Sent a response that has an [errors] list next to its
    [data], neither fails: each reads [data] and returns its result as
    if there were no error. *)
Theorem lookups_ignore_errors :
  search_companies (scripted [Body companies_with_errors] unreachable)
                   decimal_int ascii_lower 1 sample_client "acme" fresh =
  (Ok (mkMatchSet [(JStr "Acme", JStr "C1")] [(JStr "Acme", JStr "C1")]),
   mkWorld [Request sample_client companies_query
                    [("first", JInt 100); ("search", JStr "acme")]]
           []) /\
  search_taxonomy (scripted [Body taxonomies_with_errors] unreachable)
                  ascii_lower sample_client "risk" fresh =
  (Ok (mkMatchSet [(JStr "Risk", JStr "T1")] [(JStr "Risk", JStr "T1")]),
   mkWorld [Request sample_client taxonomies_query []] []).
Proof. split; reflexivity. Qed.

(** A response with [errors] and a null [data], as a GraphQL server sends
    for a failed query: the lookup fails on reading [data], with the
    [TypeError] of subscripting [None]. *)
Example lookup_fails_on_data :
  search_companies (scripted [Body documents_with_errors] unreachable)
                   decimal_int ascii_lower 1 sample_client "acme" fresh =
  (Raise TypeError,
   mkWorld [Request sample_client companies_query
                    [("first", JInt 100); ("search", JStr "acme")]]
           []).
Proof. reflexivity. Qed.

(** The files after the headers and the sample document, focus C1. *)
Example sample_files :
  (write_all_headers [] ;;; write_docs [document_json sample_document] "C1")
    no_files =
  (Ok tt,
   mkFiles
     [map JStr docs_header;
      [JStr "D1"; JStr "2024-01-02T03:04:05Z"; JInt (-1); JInt 1200;
       JStr "Example Ltd"; JStr "example.com"; JStr "Example News";
       JStr "A. Writer"; JStr "https://example.com/a"; JStr "A title"]]
     [map JStr denorm_header;
      [JStr "D1"; JStr "2024-01-02T03:04:05Z"; JInt (-1); JInt 1200;
       JStr "C1"; JStr "Acme"; JInt 3; JStr "P1"; JStr "Safety"; JInt 2];
      [JStr "D1"; JStr "2024-01-02T03:04:05Z"; JInt (-1); JInt 1200;
       JStr "C1"; JStr "Acme"; JInt 3; JStr "P2"; JStr "Tax"; JInt 5]]
     [map JStr comp_header;
      [JStr "D1"; JStr "C1"; JStr "Acme"; JInt 3]]
     [map JStr tops_header;
      [JStr "D1"; JStr "P1"; JStr "Safety"; JInt 2];
      [JStr "D1"; JStr "P2"; JStr "Tax"; JInt 5]]).
Proof. reflexivity. Qed.

(** The header of documents_denormalised.csv names eleven columns, one
    of them [data_source]; its rows have ten cells. *)
Example denormalised_columns :
  List.length denorm_header = 11%nat /\
  Forall (fun r => List.length r = 10%nat)
         (denorm_rows
            (snd (write_docs [document_json sample_document] "C1" no_files))).
Proof. split; [reflexivity | repeat constructor]. Qed.

(** A relation with the focus that is listed twice has its rows twice. *)
Example doubled_rows :
  snd (write_docs [document_json doubled_document] "C1" no_files) =
  mkFiles
    [[JStr "D2"; JStr "2024-01-03T00:00:00Z"; JInt 0; JInt 10;
      JStr "Example Ltd"; JStr "example.com"; JStr "Example News";
      JNull; JStr "https://example.com/b"; JStr "Another"]]
    [[JStr "D2"; JStr "2024-01-03T00:00:00Z"; JInt 0; JInt 10;
      JStr "C1"; JStr "Acme"; JInt 3; JStr "P1"; JStr "Safety"; JInt 2];
     [JStr "D2"; JStr "2024-01-03T00:00:00Z"; JInt 0; JInt 10;
      JStr "C1"; JStr "Acme"; JInt 3; JStr "P1"; JStr "Safety"; JInt 2]]
    [[JStr "D2"; JStr "C1"; JStr "Acme"; JInt 3];
     [JStr "D2"; JStr "C1"; JStr "Acme"; JInt 3]]
    [[JStr "D2"; JStr "P1"; JStr "Safety"; JInt 2]].
Proof. reflexivity. Qed.


(** ** The further properties on examples *)

Lemma scripted_serves_prefix script more default :
  serves (scripted (script ++ more) default) 0 script.
Proof.
  intros i r req H. apply (scripted_serves (script ++ more) default).
  rewrite nth_error_app1; [exact H|].
  apply nth_error_Some. congruence.
Qed.

Lemma negative_wait_raises_witness :
  execute_query_with_retries busy_negative decimal_int ascii_lower
                             sample_client "query" [] fresh =
  (Raise ValueError, mkWorld [Request sample_client "query" []] []).
Proof.
  apply (negative_wait_raises busy_negative decimal_int ascii_lower
           sample_client "query" [] [] []
           (too_many_requests [("Retry-After", "-1")]) (-1) fresh).
  - constructor.
  - constructor.
  - reflexivity.
  - repeat constructor.
  - reflexivity.
  - apply (scripted_serves_prefix
             [rate_limit (too_many_requests [("Retry-After", "-1")])]
             [Body (JObj [("data", JNull)])] unreachable).
Defined.

Lemma errors_raise_witness :
  next errors_only decimal_int ascii_lower dumps sample_client
       (get_documents sample_client sample_insight) fresh =
  (Raise (Exception
            (graphql_err_message dumps ["Unknown focus"; "Unknown taxonomy"]
                                 sample_errors)),
   mkWorld [Request sample_client documents_query
                    [("insight", sample_insight); ("first", JInt 100)]]
           []).
Proof.
  apply (errors_raise errors_only decimal_int ascii_lower dumps sample_client
           (JBool true) [("insight", sample_insight); ("first", JInt 100)] 1
           fresh documents_with_errors
           [JObj [("message", JStr "Unknown focus")];
            JObj [("message", JStr "Unknown taxonomy")]]
           ["Unknown focus"; "Unknown taxonomy"]).
  - vm_compute. discriminate.
  - reflexivity.
  - reflexivity.
  - reflexivity.
  - repeat constructor.
Defined.

Lemma not_an_object_raises_witness :
  next list_reply decimal_int ascii_lower dumps sample_client
       (get_documents sample_client sample_insight) fresh =
  (Raise AttributeError,
   mkWorld [Request sample_client documents_query
                    [("insight", sample_insight); ("first", JInt 100)]]
           []).
Proof.
  apply (not_an_object_raises list_reply decimal_int ascii_lower dumps
           sample_client (JBool true)
           [("insight", sample_insight); ("first", JInt 100)] 1 fresh
           (JList [JInt 1])).
  - vm_compute. discriminate.
  - reflexivity.
  - reflexivity.
  - intros d H. discriminate H.
Defined.

Lemma falsy_has_next_page_stops_witness :
  pages_of null_has_next decimal_int ascii_lower dumps 2 sample_client
           (get_documents sample_client sample_insight) fresh =
  (Ok [[document_json sample_document]],
   mkWorld [Request sample_client documents_query
                    [("insight", sample_insight); ("first", JInt 100)]]
           []).
Proof.
  apply (falsy_has_next_page_stops null_has_next decimal_int ascii_lower dumps
           sample_client (JBool true)
           [("insight", sample_insight); ("first", JInt 100)] 1 fresh
           last_page JNull 0).
  - vm_compute. discriminate.
  - reflexivity.
  - reflexivity.
  - reflexivity.
Defined.

Lemma missing_page_info_raises_witness :
  next no_page_info decimal_int ascii_lower dumps sample_client
       (get_documents sample_client sample_insight) fresh =
  (Raise (KeyError "pageInfo"),
   mkWorld [Request sample_client documents_query
                    [("insight", sample_insight); ("first", JInt 100)]]
           []).
Proof.
  apply (missing_page_info_raises no_page_info decimal_int ascii_lower dumps
           sample_client (JBool true)
           [("insight", sample_insight); ("first", JInt 100)] 1 fresh
           [document_json sample_document]).
  - vm_compute. discriminate.
  - reflexivity.
  - reflexivity.
Defined.

(** The second request of the download of [two_pages]. *)
Lemma requests_carry_cursors_witness :
  req_url (Request sample_client documents_query
             [("insight", sample_insight); ("first", JInt 100);
              ("after", JStr "cursor-1")])
  = url sample_client /\
  req_headers (Request sample_client documents_query
                 [("insight", sample_insight); ("first", JInt 100);
                  ("after", JStr "cursor-1")])
  = _headers sample_client /\
  req_query (Request sample_client documents_query
               [("insight", sample_insight); ("first", JInt 100);
                ("after", JStr "cursor-1")])
  = documents_query /\
  lookup "insight" [("insight", sample_insight); ("first", JInt 100);
                    ("after", JStr "cursor-1")] = Some sample_insight /\
  lookup "first" [("insight", sample_insight); ("first", JInt 100);
                  ("after", JStr "cursor-1")] = Some (JInt 100) /\
  lookup "after" [("insight", sample_insight); ("first", JInt 100);
                  ("after", JStr "cursor-1")] = Some (JStr "cursor-1").
Proof.
  apply (requests_carry_cursors two_pages decimal_int ascii_lower dumps
           sample_client sample_insight [empty_page] last_page 3 1
           (Request sample_client documents_query
              [("insight", sample_insight); ("first", JInt 100);
               ("after", JStr "cursor-1")])).
  - vm_compute. discriminate.
  - repeat constructor.
  - reflexivity.
  - apply scripted_serves.
  - cbn. lia.
  - reflexivity.
Defined.

(** One rate limit before the first page and two before the last: five
    requests, three sleeps, two batches. *)
Lemma pages_through_rate_limits_witness :
  pages_of busy_pages decimal_int ascii_lower dumps 3 sample_client
           (get_documents sample_client sample_insight) fresh =
  (Ok [[]; [document_json sample_document]],
   mkWorld
     [Request sample_client documents_query
              [("insight", sample_insight); ("first", JInt 100)];
      Request sample_client documents_query
              [("insight", sample_insight); ("first", JInt 100)];
      Request sample_client documents_query
              [("insight", sample_insight); ("first", JInt 100);
               ("after", JStr "cursor-1")];
      Request sample_client documents_query
              [("insight", sample_insight); ("first", JInt 100);
               ("after", JStr "cursor-1")];
      Request sample_client documents_query
              [("insight", sample_insight); ("first", JInt 100);
               ("after", JStr "cursor-1")]]
     [5; 30; 1]).
Proof.
  apply (pages_through_rate_limits busy_pages decimal_int ascii_lower dumps
           sample_client sample_insight [first_burst] last_burst 3).
  - repeat constructor; vm_compute; discriminate.
  - repeat constructor.
  - reflexivity.
  - apply scripted_serves.
  - cbn. lia.
Defined.

Lemma missing_field_writes_nothing_witness :
  write_docs [without_key "title" (document_json sample_document);
              document_json doubled_document] "C1" no_files =
  (Raise (KeyError "title"), no_files).
Proof.
  apply (missing_field_writes_nothing sample_document "title"
           [document_json doubled_document] "C1" no_files).
  cbn. auto 12.
Defined.

Lemma missing_relations_after_documents_row_witness :
  write_docs [without_key "topics" (document_json sample_document)] "C1"
             no_files =
  (Raise (KeyError "topics"),
   mkFiles [documents_row sample_document] [] [] []).
Proof.
  apply (missing_relations_after_documents_row sample_document "topics" "C1"
           no_files).
  right. reflexivity.
Defined.

Lemma search_taxonomy_partitions_witness :
  search_taxonomy taxonomies ascii_lower sample_client "RISK" fresh =
  (Ok (mkMatchSet [(JStr "Risk", JStr "T1"); (JStr "risk", JStr "T2")]
                  [(JStr "Risk", JStr "T1"); (JStr "risk", JStr "T2");
                   (JStr "Reputation", JStr "T3")]),
   mkWorld [Request sample_client taxonomies_query []] []).
Proof.
  apply (search_taxonomy_partitions taxonomies ascii_lower sample_client
           "RISK" sample_taxonomies fresh).
  reflexivity.
Defined.

Lemma search_taxonomy_does_not_retry_witness :
  search_taxonomy busy_once ascii_lower sample_client "risk" fresh =
  (Raise (HTTPError (too_many_requests [("Retry-After", "5")])),
   mkWorld [Request sample_client taxonomies_query []] []).
Proof.
  apply (search_taxonomy_does_not_retry busy_once ascii_lower sample_client
           "risk" (HTTPError (too_many_requests [("Retry-After", "5")]))
           fresh).
  reflexivity.
Defined.

Lemma search_companies_best_sound_witness :
  sound_matches ascii_lower "acme"
    (mkMatchSet [(JStr "ACME", JStr "C1")]
                [(JStr "Acme Holdings", JStr "C7"); (JStr "ACME", JStr "C1");
                 (JStr "Acme Rockets", JStr "C9")]).
Proof.
  apply (search_companies_best_sound two_company_pages decimal_int ascii_lower
           2 sample_client "acme" fresh
           (mkMatchSet [(JStr "ACME", JStr "C1")]
                       [(JStr "Acme Holdings", JStr "C7");
                        (JStr "ACME", JStr "C1");
                        (JStr "Acme Rockets", JStr "C9")])
           (mkWorld
              [Request sample_client companies_query
                       [("first", JInt 100); ("search", JStr "acme")];
               Request sample_client companies_query
                       [("first", JInt 100); ("search", JStr "acme");
                        ("after", JStr "cursor-1")]]
              [])).
  reflexivity.
Defined.

Lemma main_refuses_existing_files_witness :
  main two_listings decimal_int ascii_lower dumps ascii_upper sample_args
       "secret" only_documents 3 (fresh, no_files) =
  (Uncaught
     (Exception
        ("Files already exist: documents.csv"
         ++ ". Use --overwrite to overwrite existing files"
         ++ " or use --append to append to existing files.")),
   (fresh, no_files)).
Proof.
  apply (main_refuses_existing_files two_listings decimal_int ascii_lower
           dumps ascii_upper sample_args "secret" only_documents 3
           (fresh, no_files) documents_csv); reflexivity.
Defined.

Lemma main_overwrite_and_append_witness :
  main two_listings decimal_int ascii_lower dumps ascii_upper both_flags
       "secret" only_documents 3 (fresh, no_files) =
  (UnboundLocalError "existing_files", (fresh, no_files)).
Proof.
  apply (main_overwrite_and_append two_listings decimal_int ascii_lower dumps
           ascii_upper both_flags "secret" only_documents 3
           (fresh, no_files)); reflexivity.
Defined.

(** Two pages, of two documents and of one: three documents in all. *)
Lemma main_downloads_all_pages_witness :
  main two_listings decimal_int ascii_lower dumps ascii_upper overwrite_args
       "secret" only_documents 3 (fresh, no_files) =
  (Finished_with 3,
   (mkWorld
      [Request sample_client documents_query
               [("insight", insight_of ascii_lower ascii_upper overwrite_args);
                ("first", JInt 100)];
       Request sample_client documents_query
               [("insight", insight_of ascii_lower ascii_upper overwrite_args);
                ("first", JInt 100); ("after", JStr "cursor-1")]]
      [],
    appended [sample_document; doubled_document; sample_document] "C1"
             (headers_written overwrite_args only_documents no_files))).
Proof.
  apply (main_downloads_all_pages two_listings decimal_int ascii_lower dumps
           ascii_upper overwrite_args "secret" only_documents
           [first_listing] last_listing 3 no_files).
  - reflexivity.
  - repeat constructor.
  - reflexivity.
  - apply scripted_serves.
  - cbn. lia.
Defined.

(** The second request cannot be sent: the rows of the first page stay. *)
Lemma main_keeps_rows_of_earlier_pages_witness :
  main listing_then_down decimal_int ascii_lower dumps ascii_upper
       overwrite_args "secret" only_documents 3 (fresh, no_files) =
  (Uncaught (URLError "unreachable"),
   (mkWorld
      [Request sample_client documents_query
               [("insight", insight_of ascii_lower ascii_upper overwrite_args);
                ("first", JInt 100)];
       Request sample_client documents_query
               [("insight", insight_of ascii_lower ascii_upper overwrite_args);
                ("first", JInt 100); ("after", JStr "cursor-1")]]
      [],
    appended [sample_document; doubled_document] "C1"
             (headers_written overwrite_args only_documents no_files))).
Proof.
  apply (main_keeps_rows_of_earlier_pages listing_then_down decimal_int
           ascii_lower dumps ascii_upper overwrite_args "secret"
           only_documents [first_listing] (URLError "unreachable") 3
           no_files).
  - reflexivity.
  - repeat constructor.
  - intros h H. discriminate H.
  - apply scripted_serves.
  - cbn. lia.
Defined.

Lemma negative_budget_raises_witness :
  next busy_then_ok decimal_int ascii_lower dumps idle_client
       (get_documents idle_client sample_insight) fresh =
  (Raise AttributeError, fresh).
Proof.
  apply (negative_budget_raises busy_then_ok decimal_int ascii_lower dumps
           idle_client (JBool true)
           [("insight", sample_insight); ("first", JInt 100)] 1 fresh);
    reflexivity.
Defined.

(** The files of the download of [two_listings] in a directory where
    nothing is kept. *)
Example downloaded_files :
  snd (snd (main two_listings decimal_int ascii_lower dumps ascii_upper
                 overwrite_args "secret" only_documents 3 (fresh, no_files)))
  = mkFiles
      [map JStr docs_header;
       documents_row sample_document; documents_row doubled_document;
       documents_row sample_document]
      [map JStr denorm_header;
       denormalised_row sample_document
         (mkCompanyRel (JStr "C1") (JStr "Acme") (JInt 3),
          mkTopicRel (JStr "P1") (JStr "Safety") (JInt 2));
       denormalised_row sample_document
         (mkCompanyRel (JStr "C1") (JStr "Acme") (JInt 3),
          mkTopicRel (JStr "P2") (JStr "Tax") (JInt 5));
       denormalised_row doubled_document
         (mkCompanyRel (JStr "C1") (JStr "Acme") (JInt 3),
          mkTopicRel (JStr "P1") (JStr "Safety") (JInt 2));
       denormalised_row doubled_document
         (mkCompanyRel (JStr "C1") (JStr "Acme") (JInt 3),
          mkTopicRel (JStr "P1") (JStr "Safety") (JInt 2));
       denormalised_row sample_document
         (mkCompanyRel (JStr "C1") (JStr "Acme") (JInt 3),
          mkTopicRel (JStr "P1") (JStr "Safety") (JInt 2));
       denormalised_row sample_document
         (mkCompanyRel (JStr "C1") (JStr "Acme") (JInt 3),
          mkTopicRel (JStr "P2") (JStr "Tax") (JInt 5))]
      [map JStr comp_header;
       [JStr "D1"; JStr "C1"; JStr "Acme"; JInt 3];
       [JStr "D2"; JStr "C1"; JStr "Acme"; JInt 3];
       [JStr "D2"; JStr "C1"; JStr "Acme"; JInt 3];
       [JStr "D1"; JStr "C1"; JStr "Acme"; JInt 3]]
      [map JStr tops_header;
       [JStr "D1"; JStr "P1"; JStr "Safety"; JInt 2];
       [JStr "D1"; JStr "P2"; JStr "Tax"; JInt 5];
       [JStr "D2"; JStr "P1"; JStr "Safety"; JInt 2];
       [JStr "D1"; JStr "P1"; JStr "Safety"; JInt 2];
       [JStr "D1"; JStr "P2"; JStr "Tax"; JInt 5]].
Proof. reflexivity. Qed.
